(** * Pet-store API test helpers: the retrying, schema-checked HTTP call

    Shallow embedding of [src/utils/apiCallHelper.ts]: the four exported
    helpers [getAPI], [postAPI], [putAPI], [deleteAPI] and the fixture
    builder [createRandomUsersRequestBody].

    The helpers are effectful: they send requests through Playwright's
    request context, read and validate response bodies, write to the
    console and throw.  Every effect is recorded, in order, in a trace of
    events that is threaded through a small exception-and-trace monad. *)

From Equations Require Import Equations.
From Stdlib Require Import ZArith List String Ascii Bool Lia DecimalString.
Import ListNotations.

Open Scope string_scope.
Open Scope list_scope.
Open Scope Z_scope.

(** ** Values *)

(** JSON values, as produced by [response.json()] and sent as request data. *)
#[warnings="-register-all"]
Inductive Json : Type :=
| JNull
| JBool (b : bool)
| JNumber (n : Z)
| JString (s : string)
| JArray (items : list Json)
| JObject (fields : list (string * Json)).

(** [Record<string, any>]: keys in insertion order. *)
Definition dict : Type := list (string * Json).

(** A thrown JavaScript error object. *)
Record exception : Type := { name : string; message : string }.

(** [new Error(message)] *)
Definition Error (msg : string) : exception :=
  {| name := "Error"; message := msg |}.

(** How an evaluation ends: with a value, or by throwing. *)
Inductive completion (A : Type) : Type :=
| Normal (a : A)
| Throw (e : exception).
Arguments Normal {A} a.
Arguments Throw {A} e.

(** Playwright's [APIResponse], reduced to what the helpers observe:
    [status()], the headers, the raw body and the completion of [json()]. *)
Record APIResponse : Type := {
  status : Z;
  responseHeaders : list (string * string);
  body : string;
  json : completion Json
}.

(** A zod schema is used through [parse] only: it returns the parsed value
    or throws. *)
Definition ZodTypeAny : Type := Json -> completion Json.

Inductive method : Type := GET | POST | PUT | DELETE.

(** The options object given to [request.get/post/put]. *)
Record requestOptions : Type := {
  params : option dict;
  headers : option dict;
  data : option Json
}.

(** One call on the request context; [request.delete(url)] passes no
    options object. *)
Record call : Type := {
  verb : method;
  target : string;
  options : option requestOptions
}.

(** Playwright's [APIRequestContext] together with the remote service: the
    completion of the [n]-th request sent through it (counting from 0). *)
Definition APIRequestContext : Type := nat -> call -> completion APIResponse.

(** ** Effects *)

Inductive event : Type :=
| Sent (c : call)              (* request.get / post / put / delete *)
| ReadJson (r : APIResponse)   (* response.json() *)
| Validated (v : Json)         (* expectedSchema.parse(v) *)
| Logged (line : string).      (* console.log(line) *)

Definition trace : Type := list event.

Definition requests (t : trace) : list call :=
  flat_map (fun ev => match ev with Sent c => [c] | _ => [] end) t.

Definition parsed (t : trace) : list APIResponse :=
  flat_map (fun ev => match ev with ReadJson r => [r] | _ => [] end) t.

Definition validated (t : trace) : list Json :=
  flat_map (fun ev => match ev with Validated v => [v] | _ => [] end) t.

Definition console (t : trace) : list string :=
  flat_map (fun ev => match ev with Logged s => [s] | _ => [] end) t.

(** Computations: from the trace so far to a completion and the trace
    extended with the events of the computation. *)
Definition M (A : Type) : Type := trace -> completion A * trace.

Definition ret {A} (a : A) : M A := fun t => (Normal a, t).

Definition throw {A} (e : exception) : M A := fun t => (Throw e, t).

Definition bind {A B} (m : M A) (k : A -> M B) : M B :=
  fun t =>
    match m t with
    | (Normal a, t') => k a t'
    | (Throw e, t') => (Throw e, t')
    end.

Declare Scope js_scope.
Delimit Scope js_scope with js.
Notation "x <- m ;; k" := (bind m (fun x => k))
  (at level 100, m at next level, right associativity) : js_scope.
Notation "m ;; k" := (bind m (fun _ => k))
  (at level 100, right associativity) : js_scope.
Open Scope js_scope.

(** [await request.<verb>(...)] *)
Definition send (request : APIRequestContext) (c : call) : M APIResponse :=
  fun t => (request (List.length (requests t)) c, t ++ [Sent c]).

Definition request_get (request : APIRequestContext) (url : string)
    (o : requestOptions) : M APIResponse :=
  send request {| verb := GET; target := url; options := Some o |}.

Definition request_post (request : APIRequestContext) (url : string)
    (o : requestOptions) : M APIResponse :=
  send request {| verb := POST; target := url; options := Some o |}.

Definition request_put (request : APIRequestContext) (url : string)
    (o : requestOptions) : M APIResponse :=
  send request {| verb := PUT; target := url; options := Some o |}.

Definition request_delete (request : APIRequestContext) (url : string)
    : M APIResponse :=
  send request {| verb := DELETE; target := url; options := None |}.

(** [await response.json()] *)
Definition response_json (response : APIResponse) : M Json :=
  fun t => (json response, t ++ [ReadJson response]).

(** [expectedSchema.parse(value)] *)
Definition schema_parse (schema : ZodTypeAny) (value : Json) : M Json :=
  fun t => (schema value, t ++ [Validated value]).

(** [console.log(line)] *)
Definition console_log (line : string) : M unit :=
  fun t => (Normal tt, t ++ [Logged line]).

(** A number inside a template literal. *)
Definition number_to_string (n : Z) : string :=
  NilZero.string_of_int (Z.to_int n).

(** A default parameter value: used when the argument is not supplied. *)
Definition default {A} (d : A) (arg : option A) : A :=
  match arg with
  | Some a => a
  | None => d
  end.

(** ** The [for] loop *)

(** What one run of a loop body asks for: go on with the next iteration,
    or leave the enclosing function through [return]. *)
Inductive flow (A : Type) : Type :=
| Continue
| Return (a : A).
Arguments Continue {A}.
Arguments Return {A} a.

(** [for (let i = start; i < bound; i++) { body } rest], where [body] may
    [return] from the enclosing function and [rest] is the code that
    follows the loop. *)
Equations? for_lt {A} (i bound : Z) (body : Z -> M (flow A)) (rest : M A)
    : M A by wf (Z.to_nat (bound - i)) lt :=
  for_lt i bound body rest with Z_lt_dec i bound := {
    | left _ =>
        f <- body i ;;
        match f with
        | Return a => ret a
        | Continue => for_lt (i + 1) bound body rest
        end
    | right _ => rest }.
Proof. lia. Qed.

(** ** The helpers *)

Definition getAPI (request : APIRequestContext) (url : string)
    (expectedStatusCode : Z) (expectedSchema : ZodTypeAny)
    (parameters : option dict) (headers : option dict)
    (retryCount : option Z) : M APIResponse :=
  let parameters := default [] parameters in
  let headers := default [] headers in
  let retryCount := default 5 retryCount in
  for_lt 0 retryCount (fun i =>
    response <- request_get request url
                  {| params := Some parameters; headers := Some headers;
                     data := None |} ;;
    if status response =? expectedStatusCode then
      responseBodyJson <- response_json response ;;
      schema_parse expectedSchema responseBodyJson ;;
      ret (Return response)
    else
      console_log ("Attempt " ++ number_to_string (i + 1)
                   ++ " failed. Retrying for " ++ url ++ "...")%string ;;
      ret Continue)
  (throw (Error "Max retries reached. API call failed.")).

Definition postAPI (request : APIRequestContext) (url : string)
    (requestBody : Json) (expectedStatusCode : Z)
    (expectedSchema : ZodTypeAny) (retryCount : option Z) : M APIResponse :=
  let retryCount := default 5 retryCount in
  for_lt 0 retryCount (fun i =>
    response <- request_post request url
                  {| params := None; headers := None;
                     data := Some requestBody |} ;;
    if status response =? expectedStatusCode then
      responseBodyJson <- response_json response ;;
      schema_parse expectedSchema responseBodyJson ;;
      ret (Return response)
    else
      console_log ("Attempt " ++ number_to_string (i + 1)
                   ++ " failed. Retrying for " ++ url ++ "...")%string ;;
      ret Continue)
  (throw (Error "Max retries reached. API call failed.")).

Definition putAPI (request : APIRequestContext) (url : string)
    (requestBody : Json) (expectedStatusCode : Z)
    (expectedSchema : ZodTypeAny) (retryCount : option Z) : M APIResponse :=
  let retryCount := default 5 retryCount in
  for_lt 0 retryCount (fun i =>
    response <- request_put request url
                  {| params := None; headers := None;
                     data := Some requestBody |} ;;
    if status response =? expectedStatusCode then
      responseBodyJson <- response_json response ;;
      schema_parse expectedSchema responseBodyJson ;;
      ret (Return response)
    else
      console_log ("Attempt " ++ number_to_string (i + 1)
                   ++ " failed. Retrying for " ++ url ++ "...")%string ;;
      ret Continue)
  (throw (Error "Max retries reached. API call failed.")).

Definition deleteAPI (request : APIRequestContext) (url : string)
    (expectedStatusCode : Z) (expectedSchema : ZodTypeAny)
    (retryCount : option Z) : M APIResponse :=
  let retryCount := default 5 retryCount in
  for_lt 0 retryCount (fun i =>
    response <- request_delete request url ;;
    if status response =? expectedStatusCode then
      responseBodyJson <- response_json response ;;
      schema_parse expectedSchema responseBodyJson ;;
      ret (Return response)
    else
      console_log ("Attempt " ++ number_to_string (i + 1)
                   ++ " failed. Retrying for " ++ url ++ "...")%string ;;
      ret Continue)
  (throw (Error "Max retries reached. API call failed.")).

(** The four exported helpers under one name, each with the arguments
    that are its own; the arguments they share are given to [invoke]. *)
Inductive helper : Type :=
| GetAPI (parameters headers : option dict)
| PostAPI (requestBody : Json)
| PutAPI (requestBody : Json)
| DeleteAPI.

Definition invoke (h : helper) (request : APIRequestContext) (url : string)
    (expectedStatusCode : Z) (expectedSchema : ZodTypeAny)
    (retryCount : option Z) : M APIResponse :=
  match h with
  | GetAPI parameters headers =>
      getAPI request url expectedStatusCode expectedSchema
             parameters headers retryCount
  | PostAPI requestBody =>
      postAPI request url requestBody expectedStatusCode expectedSchema
              retryCount
  | PutAPI requestBody =>
      putAPI request url requestBody expectedStatusCode expectedSchema
             retryCount
  | DeleteAPI =>
      deleteAPI request url expectedStatusCode expectedSchema retryCount
  end.

(** The request a helper sends on each of its attempts. *)
Definition request_of (h : helper) (url : string) : call :=
  match h with
  | GetAPI parameters headers =>
      {| verb := GET; target := url;
         options := Some {| params := Some (default [] parameters);
                            headers := Some (default [] headers);
                            data := None |} |}
  | PostAPI requestBody =>
      {| verb := POST; target := url;
         options := Some {| params := None; headers := None;
                            data := Some requestBody |} |}
  | PutAPI requestBody =>
      {| verb := PUT; target := url;
         options := Some {| params := None; headers := None;
                            data := Some requestBody |} |}
  | DeleteAPI =>
      {| verb := DELETE; target := url; options := None |}
  end.

(** The line written to the console after attempt number [attempt]
    (counted from 1) came back with another status code. *)
Definition diagnostic (attempt : Z) (url : string) : string :=
  ("Attempt " ++ number_to_string attempt
   ++ " failed. Retrying for " ++ url ++ "...")%string.

(** The error thrown once the loop is left without a [return]. *)
Definition exhausted : exception :=
  Error "Max retries reached. API call failed.".

(** ** The operation of the specification

    Section 4.1 of the specification describes one operation for the four
    methods: from an attempt budget, send the described request; when the
    status code is the expected one, parse the body, validate it and
    return the response; otherwise write the diagnostic and go on with the
    next attempt; fail when the budget is used up. *)
Section Specification.

Variables (request : APIRequestContext) (descriptor : call).
Variables (expected : Z) (schema : ZodTypeAny).

Fixpoint spec_attempts (remaining : nat) (attempt : Z) : M APIResponse :=
  match remaining with
  | O => throw exhausted
  | S remaining' =>
      response <- send request descriptor ;;
      if status response =? expected then
        value <- response_json response ;;
        schema_parse schema value ;;
        ret response
      else
        console_log (diagnostic attempt (target descriptor)) ;;
        spec_attempts remaining' (attempt + 1)
  end.

Definition spec_call (maximum : option Z) : M APIResponse :=
  spec_attempts (Z.to_nat (default 5 maximum)) 1.

End Specification.

(** ** Fixtures *)

Record User : Type := {
  id : Z;
  username : string;
  firstName : string;
  lastName : string;
  email : string;
  password : string;
  phone : string;
  userStatus : Z
}.

(** The part of [@faker-js/faker] the fixture builder calls.  The library
    is not part of the repository: its generator state is [G] and each
    call returns a value and the next state. *)
Class Faker (G : Type) : Type := {
  number_int : Z -> Z -> G -> Z * G;      (* faker.number.int({min, max}) *)
  string_uuid : G -> string * G;
  person_firstName : G -> string * G;
  person_lastName : G -> string * G;
  internet_email : G -> string * G;
  internet_password : G -> string * G;
  phone_number : G -> string * G
}.

(** The documented contract of [faker.number.int]: an integer between
    [min] and [max], both included. *)
Definition number_int_in_range {G} `{Faker G} : Prop :=
  forall min max g, min <= max ->
    min <= fst (number_int min max g) <= max.

Section Fixtures.

Context {G : Type} `{Faker G}.

(** The object literal of the loop body; its properties are evaluated
    in the order they are written. *)
Definition userRequestBody (g : G) : User * G :=
  let '(id, g) := number_int 1 100000 g in
  let '(uuid, g) := string_uuid g in
  let '(firstName, g) := person_firstName g in
  let '(lastName, g) := person_lastName g in
  let '(email, g) := internet_email g in
  let '(password, g) := internet_password g in
  let '(phone, g) := phone_number g in
  let '(userStatus, g) := number_int 0 10 g in
  ({| id := id;
      username := ("TestUserName-test-automation-delete-me-" ++ uuid)%string;
      firstName := firstName;
      lastName := lastName;
      email := email;
      password := password;
      phone := phone;
      userStatus := userStatus |}, g).

(** The loop of [createRandomUsersRequestBody], from [i] on, with the
    array built so far. *)
Equations? createRandomUsers_for (amountOfUsers i : Z)
    (usersArray : list User) (g : G)
    : list User * G by wf (Z.to_nat (amountOfUsers - i)) lt :=
  createRandomUsers_for amountOfUsers i usersArray g
    with Z_lt_dec i amountOfUsers := {
    | left _ =>
        createRandomUsers_for amountOfUsers (i + 1)
          (usersArray ++ [fst (userRequestBody g)])
          (snd (userRequestBody g))
    | right _ => (usersArray, g) }.
Proof. lia. Qed.

Definition createRandomUsersRequestBody (amountOfUsers : Z) (g : G)
    : list User * G :=
  createRandomUsers_for amountOfUsers 0 [] g.

End Fixtures.

(** ** Vocabulary of the statements *)

(** The body shared by the four loops, for the request [c]. *)
Definition attempt_body (request : APIRequestContext) (c : call)
    (expected : Z) (schema : ZodTypeAny) (i : Z) : M (flow APIResponse) :=
  response <- send request c ;;
  if status response =? expected then
    responseBodyJson <- response_json response ;;
    schema_parse schema responseBodyJson ;;
    ret (Return response)
  else
    console_log (diagnostic (i + 1) (target c)) ;;
    ret Continue.

(** The completion of the [k]-th request (counted from 1) that a helper
    sends when it is called after the trace [t]. *)
Definition attempt_outcome (request : APIRequestContext) (c : call)
    (t : trace) (k : nat) : completion APIResponse :=
  request (List.length (requests t) + Nat.pred k)%nat c.

(** Attempt [k] came back, with a status code other than the expected. *)
Definition mismatched (request : APIRequestContext) (c : call)
    (expected : Z) (t : trace) (k : nat) : Prop :=
  exists r, attempt_outcome request c t k = Normal r /\ status r <> expected.

(** The events of [m] consecutive attempts with another status code, the
    first of them numbered [a]. *)
Fixpoint failures (c : call) (a : Z) (m : nat) : trace :=
  match m with
  | O => []
  | S m' => Sent c :: Logged (diagnostic a (target c)) :: failures c (a + 1) m'
  end.

Section Executions.

Variables (request : APIRequestContext) (c : call).
Variables (expected : Z) (schema : ZodTypeAny).

(** [execution n sent a res new]: with [n] attempts left, [sent] requests
    already gone through the context and the next attempt numbered [a],
    the loop ends with [res] after the events [new]. *)
Inductive execution
  : nat -> nat -> Z -> completion APIResponse -> trace -> Prop :=
| exec_exhausted sent a :
    execution 0 sent a (Throw exhausted) []
| exec_request_throws n sent a e :
    request sent c = Throw e ->
    execution (S n) sent a (Throw e) [Sent c]
| exec_json_throws n sent a r e :
    request sent c = Normal r -> status r = expected ->
    json r = Throw e ->
    execution (S n) sent a (Throw e) [Sent c; ReadJson r]
| exec_schema_throws n sent a r v e :
    request sent c = Normal r -> status r = expected ->
    json r = Normal v -> schema v = Throw e ->
    execution (S n) sent a (Throw e) [Sent c; ReadJson r; Validated v]
| exec_returns n sent a r v v' :
    request sent c = Normal r -> status r = expected ->
    json r = Normal v -> schema v = Normal v' ->
    execution (S n) sent a (Normal r) [Sent c; ReadJson r; Validated v]
| exec_retries n sent a r res new :
    request sent c = Normal r -> status r <> expected ->
    execution n (S sent) (a + 1) res new ->
    execution (S n) sent a res
      (Sent c :: Logged (diagnostic a (target c)) :: new).

End Executions.

(** Lower case, to compare messages without regard to letter case. *)
Definition lower_ascii (ch : ascii) : ascii :=
  let n := nat_of_ascii ch in
  if ((65 <=? n) && (n <=? 90))%nat then ascii_of_nat (n + 32) else ch.

Fixpoint lower (s : string) : string :=
  match s with
  | EmptyString => EmptyString
  | String ch s' => String (lower_ascii ch) (lower s')
  end.

(** What the statement about the fixtures asks of one user. *)
Definition well_formed_user (u : User) : Prop :=
  1 <= id u <= 100000
  /\ 0 <= userStatus u <= 10
  /\ prefix "TestUserName-test-automation-delete-me-" (username u) = true.

(** ** Sample collaborators

    The schema and the calls of the login and logout tests, and services
    that answer them in the ways the statements below distinguish. *)

Definition ZodError : exception :=
  {| name := "ZodError"; message := "Invalid input" |}.

Fixpoint field (key : string) (fields : list (string * Json)) : option Json :=
  match fields with
  | [] => None
  | (k, v) :: rest => if String.eqb k key then Some v else field key rest
  end.

(** [z.object({ code: z.literal(200), type: z.literal("unknown"),
                message: z.string() })] *)
Definition expectedLoginLogoutUserResponseSchema : ZodTypeAny :=
  fun value =>
    match value with
    | JObject fields =>
        match field "code" fields, field "type" fields,
              field "message" fields with
        | Some (JNumber code), Some (JString type), Some (JString message) =>
            if (code =? 200) && String.eqb type "unknown" then
              Normal (JObject [("code", JNumber code);
                               ("type", JString type);
                               ("message", JString message)])
            else Throw ZodError
        | _, _, _ => Throw ZodError
        end
    | _ => Throw ZodError
    end.

Definition logout_url : string := "https://petstore.swagger.io/v2/user/logout".

Definition ok_body : Json :=
  JObject [("code", JNumber 200); ("type", JString "unknown");
           ("message", JString "ok")].

Definition wrong_body : Json :=
  JObject [("code", JNumber 200); ("type", JString "known");
           ("message", JString "ok")].

Definition answer (code : Z) (value : Json) : APIResponse :=
  {| status := code; responseHeaders := []; body := "";
     json := Normal value |}.

(** 500 on the first two requests, then 200 with a body of the schema. *)
Definition service_recovering : APIRequestContext :=
  fun n _ => Normal (if (n <? 2)%nat then answer 500 JNull
                     else answer 200 ok_body).

(** 404 on every request. *)
Definition service_down : APIRequestContext :=
  fun _ _ => Normal (answer 404 JNull).

(** 500 on the first request, then 200 with a body the schema rejects. *)
Definition service_wrong_body : APIRequestContext :=
  fun n _ => Normal (if (n <? 1)%nat then answer 500 JNull
                     else answer 200 wrong_body).

Definition connection_reset : exception :=
  {| name := "Error"; message := "read ECONNRESET" |}.

(** 500 on the first request; the second never gets an answer. *)
Definition service_unreachable : APIRequestContext :=
  fun n _ => if (n <? 1)%nat then Normal (answer 500 JNull)
             else Throw connection_reset.

(** A deterministic stand-in for the fixture generator: the state is a
    seed, advanced by a linear congruential step after every call. *)
Definition next_seed (g : Z) : Z := (g * 1103515245 + 12345) mod 2147483648.

Definition seeded_text (label : string) (g : Z) : string * Z :=
  ((label ++ number_to_string g)%string, next_seed g).

#[export] Instance seeded_faker : Faker Z := {|
  number_int := fun min max g => (min + g mod (max - min + 1), next_seed g);
  string_uuid := seeded_text "uuid-";
  person_firstName := seeded_text "first-";
  person_lastName := seeded_text "last-";
  internet_email := seeded_text "mail-";
  internet_password := seeded_text "secret-";
  phone_number := seeded_text "phone-"
|}.

(** [response.json()] on a body that is not JSON. *)
Definition SyntaxError : exception :=
  {| name := "SyntaxError"; message := "Unexpected token < in JSON" |}.

Definition garbled (code : Z) : APIResponse :=
  {| status := code; responseHeaders := []; body := "<html>";
     json := Throw SyntaxError |}.

(** 500 on the first request, then 200 with a body that is not JSON. *)
Definition service_garbled : APIRequestContext :=
  fun n _ => Normal (if (n <? 1)%nat then answer 500 JNull else garbled 200).

(** A schema that accepts what [schema] accepts and returns [null]. *)
Definition forgetful (schema : ZodTypeAny) : ZodTypeAny :=
  fun value =>
    match schema value with
    | Normal _ => Normal JNull
    | Throw e => Throw e
    end.

(** ** The tests of the user API

    The two tests that call the service without the helpers: one sends a
    single request, the other carries its own retry loop. *)

(** A value of [process.env] inside a template literal: a variable that is
    not set is written as the text of [undefined]. *)
Definition template (value : option string) : string :=
  default "undefined" value.

(** [`${process.env.BASE_URL}${process.env.API_VERSION}`] *)
Definition BASE_URL (env : string -> option string) : string :=
  (template (env "BASE_URL") ++ template (env "API_VERSION"))%string.

(** The request body that Playwright sends for a user object. *)
Definition user_json (u : User) : Json :=
  JObject [("id", JNumber (id u));
           ("username", JString (username u));
           ("firstName", JString (firstName u));
           ("lastName", JString (lastName u));
           ("email", JString (email u));
           ("password", JString (password u));
           ("phone", JString (phone u));
           ("userStatus", JNumber (userStatus u))].

(** The part of [zod] the tests build their schemas with.  The library is
    not part of the repository. *)
Class Zod : Type := {
  z_literal_number : Z -> ZodTypeAny;
  z_literal_string : string -> ZodTypeAny;
  z_number : ZodTypeAny;
  z_string : ZodTypeAny;
  z_string_email : ZodTypeAny;
  z_object : list (string * ZodTypeAny) -> ZodTypeAny
}.

Definition TypeError (msg : string) : exception :=
  {| name := "TypeError"; message := msg |}.

(** [x!.property] on a variable that may still be [undefined]: the
    assertion [!] is erased, and reading a property of [undefined] throws. *)
Definition member (x : option APIResponse) (property : string)
    : M APIResponse :=
  match x with
  | Some response => ret response
  | None =>
      throw (TypeError ("Cannot read properties of undefined (reading '"
                        ++ property ++ "')")%string)
  end.

(** What one run of a loop body that assigns a variable asks for: go on,
    or leave the loop through [break]; both with the variable's value. *)
Inductive step (S : Type) : Type :=
| Next (s : S)
| Break (s : S).
Arguments Next {S} s.
Arguments Break {S} s.

(** [for (let i = start; i < bound; i++) { body }] around a variable that
    the body assigns and that is read after the loop. *)
Equations? for_lt_break {S} (i bound : Z) (s : S)
    (body : Z -> S -> M (step S)) : M S by wf (Z.to_nat (bound - i)) lt :=
  for_lt_break i bound s body with Z_lt_dec i bound := {
    | left _ =>
        r <- body i s ;;
        match r with
        | Break s' => ret s'
        | Next s' => for_lt_break (i + 1) bound s' body
        end
    | right _ => ret s }.
Proof. lia. Qed.

Section UserApiTests.

Context {zod : Zod}.

(** The error of a failed [expect(received).toBe(expected)]; the text is
    Playwright's. *)
Variable toBe_error : Z -> Z -> exception.

Variable env : string -> option string.

(** [expect(received).toBe(expected)] on numbers. *)
Definition expect_toBe (received expected : Z) : M unit :=
  if received =? expected then ret tt
  else throw (toBe_error received expected).

(** [test('Create a new user', ...)] *)
Definition test_Create_a_new_user (request : APIRequestContext)
    (createUserRequestBody : User) : M unit :=
  createUserResponse <-
    request_post request (BASE_URL env ++ "/user")%string
      {| params := None; headers := None;
         data := Some (user_json createUserRequestBody) |} ;;
  expect_toBe (status createUserResponse) 200 ;;
  let expectedCreateUserResponseSchema :=
    z_object [("code", z_literal_number 200);
              ("type", z_literal_string "unknown");
              ("message",
               z_literal_string (number_to_string (id createUserRequestBody)))]
  in
  actualResponseBody <- response_json createUserResponse ;;
  schema_parse expectedCreateUserResponseSchema actualResponseBody ;;
  ret tt.

(** [test('Get user details', ...)] *)
Definition test_Get_user_details (request : APIRequestContext)
    (createUserRequestBody : User) : M unit :=
  let username := username createUserRequestBody in
  getUserResponse <-
    for_lt_break 0 5 None (fun i _ =>
      getUserResponse <-
        send request {| verb := GET;
                        target := (BASE_URL env ++ "/user/" ++ username)%string;
                        options := None |} ;;
      if status getUserResponse =? 200 then
        ret (Break (Some getUserResponse))
      else
        console_log ("Attempt " ++ number_to_string (i + 1)
                     ++ " failed. Retrying...")%string ;;
        ret (Next (Some getUserResponse))) ;;
  response <- member getUserResponse "status" ;;
  expect_toBe (status response) 200 ;;
  let expectedGetUserResponseSchema :=
    z_object [("id", z_number);
              ("username", z_string);
              ("firstName", z_string);
              ("lastName", z_string);
              ("email", z_string_email);
              ("password", z_string);
              ("phone", z_string);
              ("userStatus", z_number)]
  in
  response <- member getUserResponse "json" ;;
  actualGetUserResponseBody <- response_json response ;;
  schema_parse expectedGetUserResponseSchema actualGetUserResponseBody ;;
  ret tt.

End UserApiTests.

(** The request of the create-user test and of each attempt of the
    get-user test. *)
Definition create_user_request (env : string -> option string) (u : User)
    : call :=
  {| verb := POST; target := (BASE_URL env ++ "/user")%string;
     options := Some {| params := None; headers := None;
                        data := Some (user_json u) |} |}.

Definition get_user_request (env : string -> option string) (u : User)
    : call :=
  {| verb := GET;
     target := (BASE_URL env ++ "/user/" ++ username u)%string;
     options := None |}.

(** The schemas the two tests build. *)
Definition create_user_schema {zod : Zod} (u : User) : ZodTypeAny :=
  z_object [("code", z_literal_number 200);
            ("type", z_literal_string "unknown");
            ("message", z_literal_string (number_to_string (id u)))].

Definition get_user_schema {zod : Zod} : ZodTypeAny :=
  z_object [("id", z_number);
            ("username", z_string);
            ("firstName", z_string);
            ("lastName", z_string);
            ("email", z_string_email);
            ("password", z_string);
            ("phone", z_string);
            ("userStatus", z_number)].

(** The events of [m] consecutive attempts of the get-user loop with
    another status code, the first of them numbered [a]. *)
Fixpoint plain_failures (c : call) (a : Z) (m : nat) : trace :=
  match m with
  | O => []
  | S m' =>
      Sent c
      :: Logged ("Attempt " ++ number_to_string a
                 ++ " failed. Retrying...")%string
      :: plain_failures c (a + 1) m'
  end.

(** The get-user test in two parts: the body of its loop for the request
    [c], and the code after the loop for the schema [schema]. *)
Definition get_user_body (request : APIRequestContext) (c : call)
    (i : Z) (_ : option APIResponse) : M (step (option APIResponse)) :=
  getUserResponse <- send request c ;;
  if status getUserResponse =? 200 then
    ret (Break (Some getUserResponse))
  else
    console_log ("Attempt " ++ number_to_string (i + 1)
                 ++ " failed. Retrying...")%string ;;
    ret (Next (Some getUserResponse)).

Definition get_user_after (toBe_error : Z -> Z -> exception)
    (schema : ZodTypeAny) (getUserResponse : option APIResponse) : M unit :=
  response <- member getUserResponse "status" ;;
  expect_toBe toBe_error (status response) 200 ;;
  response <- member getUserResponse "json" ;;
  actualGetUserResponseBody <- response_json response ;;
  schema_parse schema actualGetUserResponseBody ;;
  ret tt.

(** The get-user test from iteration [i] on, the variable holding [s]. *)
Definition get_user_from (toBe_error : Z -> Z -> exception)
    (request : APIRequestContext) (c : call) (schema : ZodTypeAny)
    (i : Z) (s : option APIResponse) : M unit :=
  getUserResponse <- for_lt_break i 5 s (get_user_body request c) ;;
  get_user_after toBe_error schema getUserResponse.

(** ** Sample collaborators of the tests *)

Fixpoint has_at_sign (s : string) : bool :=
  match s with
  | EmptyString => false
  | String ch s' => Ascii.eqb ch "@" || has_at_sign s'
  end.

Fixpoint parse_shape (shape : list (string * ZodTypeAny))
    (fields : list (string * Json)) : completion (list (string * Json)) :=
  match shape with
  | [] => Normal []
  | (key, schema) :: shape' =>
      match field key fields with
      | None => Throw ZodError
      | Some value =>
          match schema value with
          | Throw e => Throw e
          | Normal value' =>
              match parse_shape shape' fields with
              | Throw e => Throw e
              | Normal out => Normal ((key, value') :: out)
              end
          end
      end
  end.

(** A stand-in for [zod] that is enough to run the tests. *)
#[export] Instance sample_zod : Zod := {|
  z_literal_number := fun n value =>
    match value with
    | JNumber m => if m =? n then Normal value else Throw ZodError
    | _ => Throw ZodError
    end;
  z_literal_string := fun s value =>
    match value with
    | JString s' => if String.eqb s' s then Normal value else Throw ZodError
    | _ => Throw ZodError
    end;
  z_number := fun value =>
    match value with JNumber _ => Normal value | _ => Throw ZodError end;
  z_string := fun value =>
    match value with JString _ => Normal value | _ => Throw ZodError end;
  z_string_email := fun value =>
    match value with
    | JString s => if has_at_sign s then Normal value else Throw ZodError
    | _ => Throw ZodError
    end;
  z_object := fun shape value =>
    match value with
    | JObject fields =>
        match parse_shape shape fields with
        | Normal out => Normal (JObject out)
        | Throw e => Throw e
        end
    | _ => Throw ZodError
    end
|}.

Definition sample_toBe_error (received expected : Z) : exception :=
  Error ("Expected: " ++ number_to_string expected
         ++ ", Received: " ++ number_to_string received)%string.

(** Only [BASE_URL] is set, as the README describes. *)
Definition sample_env (key : string) : option string :=
  if String.eqb key "BASE_URL" then Some "https://petstore.swagger.io/v2"
  else None.

Definition sample_user : User :=
  {| id := 7; username := "TestUserName-test-automation-delete-me";
     firstName := "Ada"; lastName := "Lovelace";
     email := "ada@example.org"; password := "secret";
     phone := "555-0100"; userStatus := 1 |}.

(** 404 on the first request, then 200 with the stored user. *)
Definition service_user_store : APIRequestContext :=
  fun n _ => Normal (if (n <? 1)%nat then answer 404 JNull
                     else answer 200 (user_json sample_user)).

(** ** The login and logout tests

    The tests that go through the helpers: a hook creates the user before
    each test, a hook deletes it afterwards. *)
Module LoginLogoutTests.

Section Describe.

Context {zod : Zod}.
Variable env : string -> option string.
Variable createUserRequestBody : User.

Definition expectedCreateUserResponseSchema : ZodTypeAny :=
  z_object [("code", z_literal_number 200);
            ("type", z_literal_string "unknown");
            ("message",
             z_literal_string (number_to_string (id createUserRequestBody)))].

Definition expectedDeleteUserResponseSchema : ZodTypeAny :=
  z_object [("code", z_literal_number 200);
            ("type", z_literal_string "unknown");
            ("message", z_literal_string (username createUserRequestBody))].

Definition expectedLoginLogoutUserResponseSchema : ZodTypeAny :=
  z_object [("code", z_literal_number 200);
            ("type", z_literal_string "unknown");
            ("message", z_string)].

(** [test.beforeEach(...)] *)
Definition beforeEach (request : APIRequestContext) : M unit :=
  console_log "Creating user before each test..." ;;
  postAPI request (BASE_URL env ++ "/user")%string
    (user_json createUserRequestBody) 200
    expectedCreateUserResponseSchema None ;;
  ret tt.

(** [test.afterEach(...)] *)
Definition afterEach (request : APIRequestContext) : M unit :=
  console_log "Deleting user after each test..." ;;
  deleteAPI request
    (BASE_URL env ++ "/user/" ++ username createUserRequestBody)%string
    200 expectedDeleteUserResponseSchema None ;;
  ret tt.

(** [test("Logs user into system", ...)] *)
Definition test_Logs_user_into_system (request : APIRequestContext)
    : M unit :=
  getAPI request (BASE_URL env ++ "/user/login")%string 200
    expectedLoginLogoutUserResponseSchema
    (Some [("username", JString (username createUserRequestBody));
           ("password", JString (password createUserRequestBody))])
    None None ;;
  ret tt.

(** [test("Logs out current logged in user", ...)] *)
Definition test_Logs_out_current_logged_in_user (request : APIRequestContext)
    : M unit :=
  getAPI request (BASE_URL env ++ "/user/logout")%string 200
    expectedLoginLogoutUserResponseSchema None None None ;;
  ret tt.

(** [test("Invalid login attempt with wrong credentials", ...)]: the body
    is empty. *)
Definition test_Invalid_login_attempt_with_wrong_credentials
    (request : APIRequestContext) : M unit :=
  ret tt.

End Describe.

End LoginLogoutTests.

Definition api_response (message : string) : Json :=
  JObject [("code", JNumber 200); ("type", JString "unknown");
           ("message", JString message)].

(** A service that creates, logs in and deletes [sample_user] on the
    first try. *)
Definition service_healthy : APIRequestContext :=
  fun n _ =>
    Normal (answer 200
              (match n with
               | O => api_response "7"
               | S O => api_response "logged in user session:1"
               | _ => api_response "TestUserName-test-automation-delete-me"
               end)).

(** * Properties *)

(** ** The loop *)

Lemma for_lt_enter {A} (i bound : Z) (body : Z -> M (flow A)) (rest : M A) :
  i < bound ->
  for_lt i bound body rest =
  (f <- body i ;;
   match f with
   | Return a => ret a
   | Continue => for_lt (i + 1) bound body rest
   end).
Proof.
  intros Hlt. rewrite for_lt_equation_1.
  destruct (Z_lt_dec i bound) as [l | n]; [| contradiction].
  now rewrite for_lt_clause_1_equation_1.
Qed.

Lemma for_lt_leave {A} (i bound : Z) (body : Z -> M (flow A)) (rest : M A) :
  bound <= i -> for_lt i bound body rest = rest.
Proof.
  intros Hge. rewrite for_lt_equation_1.
  destruct (Z_lt_dec i bound) as [l | n]; [lia |].
  now rewrite for_lt_clause_1_equation_2.
Qed.

Lemma invoke_loop h request url expected schema retryCount :
  invoke h request url expected schema retryCount =
  for_lt 0 (default 5 retryCount)
    (attempt_body request (request_of h url) expected schema)
    (throw exhausted).
Proof. destruct h; reflexivity. Qed.

Lemma target_request_of h url : target (request_of h url) = url.
Proof. destruct h; reflexivity. Qed.

Section Loop.

Variables (request : APIRequestContext) (c : call).
Variables (expected : Z) (schema : ZodTypeAny).

Lemma loop_spec_attempts (n : nat) :
  forall i bound t,
    Z.to_nat (bound - i) = n ->
    for_lt i bound (attempt_body request c expected schema)
      (throw exhausted) t
    = spec_attempts request c expected schema n (i + 1) t.
Proof.
  induction n as [| n IH]; intros i bound t Hn.
  - rewrite for_lt_leave by lia. reflexivity.
  - rewrite for_lt_enter by lia.
    cbn [spec_attempts]. unfold attempt_body, bind, send.
    destruct (request _ c) as [r | e]; [| reflexivity].
    destruct (status r =? expected).
    + unfold response_json. destruct (json r) as [v | e]; [| reflexivity].
      unfold schema_parse. destruct (schema v); reflexivity.
    + unfold console_log, ret. apply IH. lia.
Qed.

End Loop.

Lemma invoke_spec_call h request url expected schema retryCount t :
  invoke h request url expected schema retryCount t =
  spec_call request (request_of h url) expected schema retryCount t.
Proof.
  rewrite invoke_loop. unfold spec_call.
  apply loop_spec_attempts. f_equal. lia.
Qed.

(** ** Observing traces *)

Lemma requests_app t u : requests (t ++ u) = requests t ++ requests u.
Proof. apply flat_map_app. Qed.

Lemma console_app t u : console (t ++ u) = console t ++ console u.
Proof. apply flat_map_app. Qed.

Lemma parsed_app t u : parsed (t ++ u) = parsed t ++ parsed u.
Proof. apply flat_map_app. Qed.

Lemma validated_app t u : validated (t ++ u) = validated t ++ validated u.
Proof. apply flat_map_app. Qed.

Lemma requests_failures c a m : requests (failures c a m) = repeat c m.
Proof.
  revert a. induction m as [| m IH]; intros a; cbn; [reflexivity |].
  now rewrite IH.
Qed.

Lemma parsed_failures c a m : parsed (failures c a m) = [].
Proof. revert a. induction m as [| m IH]; intros a; cbn; auto. Qed.

Lemma validated_failures c a m : validated (failures c a m) = [].
Proof. revert a. induction m as [| m IH]; intros a; cbn; auto. Qed.

Lemma console_failures c a m :
  console (failures c a m)
  = map (fun j => diagnostic (a + Z.of_nat j) (target c)) (seq 0 m).
Proof.
  revert a. induction m as [| m IH]; intros a; [reflexivity |].
  cbn [failures console flat_map app seq map].
  rewrite Z.add_0_r. f_equal.
  change (flat_map _ (failures c (a + 1) m))
    with (console (failures c (a + 1) m)).
  rewrite IH, <- seq_shift, map_map.
  apply map_ext. intros j. f_equal. lia.
Qed.

(** The lines of attempts [1] to [m], numbered as the helpers number them. *)
Lemma console_failures_from_1 c m :
  console (failures c 1 m)
  = map (fun j => diagnostic (Z.of_nat j) (target c)) (seq 1 m).
Proof.
  rewrite console_failures, <- seq_shift, map_map.
  apply map_ext. intros j. f_equal. lia.
Qed.

Lemma failures_snoc c a m :
  failures c a (S m)
  = failures c a m ++ [Sent c; Logged (diagnostic (a + Z.of_nat m) (target c))].
Proof.
  revert a. induction m as [| m IH]; intros a.
  - cbn. now rewrite Z.add_0_r.
  - change (failures c a (S (S m)))
      with (Sent c :: Logged (diagnostic a (target c))
              :: failures c (a + 1) (S m)).
    rewrite IH. cbn [failures app].
    replace (a + 1 + Z.of_nat m) with (a + Z.of_nat (S m)) by lia.
    reflexivity.
Qed.

(** ** Runs of the operation *)

Section Runs.

Variables (request : APIRequestContext) (c : call).
Variables (expected : Z) (schema : ZodTypeAny).

Let run := spec_attempts request c expected schema.

(** The index of the next request only counts the requests of the trace. *)
Lemma sent_after_failure t line :
  List.length (requests (t ++ [Sent c; Logged line]))
  = S (List.length (requests t)).
Proof. rewrite requests_app, length_app. cbn. lia. Qed.

(** [m] attempts with another status code use up [m] of the budget. *)
Lemma run_failures (m : nat) :
  forall n a t,
    (forall j, (j < m)%nat ->
       exists r, request (List.length (requests t) + j)%nat c = Normal r
                 /\ status r <> expected) ->
    run (m + n)%nat a t = run n (a + Z.of_nat m) (t ++ failures c a m).
Proof.
  induction m as [| m IH]; intros n a t Hfail.
  - cbn [failures Nat.add]. now rewrite app_nil_r, Z.add_0_r.
  - destruct (Hfail 0%nat) as (r & Hr & Hs); [lia |].
    rewrite Nat.add_0_r in Hr.
    change (run (S m + n)%nat a t)
      with (spec_attempts request c expected schema (S (m + n)) a t).
    cbn [spec_attempts]. unfold bind at 1. unfold send at 1. rewrite Hr.
    apply Z.eqb_neq in Hs. rewrite Hs.
    unfold bind, console_log.
    fold (run (m + n)%nat (a + 1)).
    rewrite <- app_assoc. cbn [app].
    rewrite IH.
    + cbn [failures]. rewrite <- !app_assoc. cbn [app].
      f_equal. lia.
    + intros j Hj. rewrite sent_after_failure.
      destruct (Hfail (S j)) as (rj & Hrj & Hsj); [lia |].
      exists rj. split; [| exact Hsj].
      now rewrite Nat.add_succ_comm.
Qed.

Lemma run_exhausted a t : run 0%nat a t = (Throw exhausted, t).
Proof. reflexivity. Qed.

Lemma run_request_throws n a t e :
  request (List.length (requests t)) c = Throw e ->
  run (S n) a t = (Throw e, t ++ [Sent c]).
Proof.
  intros He. unfold run. cbn [spec_attempts].
  unfold bind, send. now rewrite He.
Qed.

Lemma run_json_throws n a t r e :
  request (List.length (requests t)) c = Normal r ->
  status r = expected -> json r = Throw e ->
  run (S n) a t = (Throw e, t ++ [Sent c; ReadJson r]).
Proof.
  intros Hr Hs Hj. unfold run. cbn [spec_attempts].
  unfold bind, send, response_json. rewrite Hr.
  apply Z.eqb_eq in Hs. rewrite Hs, Hj.
  now rewrite <- app_assoc.
Qed.

Lemma run_schema_throws n a t r v e :
  request (List.length (requests t)) c = Normal r ->
  status r = expected -> json r = Normal v -> schema v = Throw e ->
  run (S n) a t = (Throw e, t ++ [Sent c; ReadJson r; Validated v]).
Proof.
  intros Hr Hs Hj Hv. unfold run. cbn [spec_attempts].
  unfold bind, send, response_json, schema_parse. rewrite Hr.
  apply Z.eqb_eq in Hs. rewrite Hs, Hj, Hv.
  now rewrite <- !app_assoc.
Qed.

Lemma run_returns n a t r v v' :
  request (List.length (requests t)) c = Normal r ->
  status r = expected -> json r = Normal v -> schema v = Normal v' ->
  run (S n) a t = (Normal r, t ++ [Sent c; ReadJson r; Validated v]).
Proof.
  intros Hr Hs Hj Hv. unfold run. cbn [spec_attempts].
  unfold bind, send, response_json, schema_parse, ret. rewrite Hr.
  apply Z.eqb_eq in Hs. rewrite Hs, Hj, Hv.
  now rewrite <- !app_assoc.
Qed.

(** Every run is one of the executions, and only adds to the trace. *)
Lemma run_execution (n : nat) :
  forall a t, exists res new,
    run n a t = (res, t ++ new)
    /\ execution request c expected schema n
         (List.length (requests t)) a res new.
Proof.
  induction n as [| n IH]; intros a t.
  - exists (Throw exhausted), []. rewrite app_nil_r.
    split; [reflexivity | constructor].
  - destruct (request (List.length (requests t)) c) as [r | e] eqn:Hr.
    + destruct (Z.eq_dec (status r) expected) as [Hs | Hs].
      * destruct (json r) as [v | e] eqn:Hj.
        -- destruct (schema v) as [v' | e] eqn:Hv.
           ++ eexists _, _. split; [eapply run_returns; eassumption |].
              eapply exec_returns; eassumption.
           ++ eexists _, _.
              split; [eapply run_schema_throws; eassumption |].
              eapply exec_schema_throws; eassumption.
        -- eexists _, _. split; [eapply run_json_throws; eassumption |].
           eapply exec_json_throws; eassumption.
      * destruct (IH (a + 1)
                     (t ++ [Sent c; Logged (diagnostic a (target c))]))
          as (res & new & Hrun & Hex).
        exists res,
          (Sent c :: Logged (diagnostic a (target c)) :: new).
        split.
        -- change (run (S n) a t) with (run (1 + n)%nat a t).
           rewrite (run_failures 1 n a t).
           ++ cbn [failures]. change (Z.of_nat 1) with 1. rewrite Hrun.
              now rewrite <- app_assoc.
           ++ intros j Hj. assert (j = 0%nat) by lia. subst j.
              rewrite Nat.add_0_r. now exists r.
        -- rewrite sent_after_failure in Hex.
           eapply exec_retries; eassumption.
    + eexists _, _. split; [eapply run_request_throws; eassumption |].
      now apply exec_request_throws.
Qed.

End Runs.

(** ** The helpers, attempt by attempt *)

Section Helpers.

Variables (h : helper) (request : APIRequestContext) (url : string).
Variables (expected : Z) (schema : ZodTypeAny).

Let c := request_of h url.

(** When the attempts before the [k]-th all came back with another
    status code, the helper reaches attempt [k] with the events of
    [k - 1] failures behind it. *)
Lemma invoke_reaches (N : Z) (k : nat) (t : trace) :
  (1 <= k)%nat -> Z.of_nat k <= N ->
  (forall j, (1 <= j < k)%nat -> mismatched request c expected t j) ->
  invoke h request url expected schema (Some N) t
  = spec_attempts request c expected schema
      (S (Z.to_nat N - k)) (Z.of_nat k) (t ++ failures c 1 (k - 1))
  /\ request (List.length (requests (t ++ failures c 1 (k - 1)))) c
     = attempt_outcome request c t k.
Proof.
  intros Hk HN Hfail. split.
  - rewrite invoke_spec_call. unfold spec_call, default. fold c.
    replace (Z.to_nat N) with ((k - 1) + S (Z.to_nat N - k))%nat at 1
      by lia.
    rewrite run_failures.
    + f_equal. lia.
    + intros j Hj. destruct (Hfail (S j)) as (r & Hr & Hs); [lia |].
      now exists r.
  - unfold attempt_outcome.
    rewrite requests_app, length_app, requests_failures, repeat_length.
    do 2 f_equal. lia.
Qed.

(** The requests and the console lines of an attempt that ends the call
    after [k - 1] failures. *)
Lemma requests_reached (k : nat) (rest : trace) :
  (1 <= k)%nat -> requests rest = [c] ->
  requests (failures c 1 (k - 1) ++ rest) = repeat c k.
Proof.
  intros Hk Hrest.
  rewrite requests_app, requests_failures, Hrest.
  replace k with (k - 1 + 1)%nat at 2 by lia.
  now rewrite repeat_app.
Qed.

Lemma console_reached (k : nat) (rest : trace) :
  console rest = [] ->
  console (failures c 1 (k - 1) ++ rest)
  = map (fun j => diagnostic (Z.of_nat j) url) (seq 1 (k - 1)).
Proof.
  intros Hrest.
  rewrite console_app, console_failures_from_1, Hrest, app_nil_r.
  unfold c. now rewrite target_request_of.
Qed.

End Helpers.

(** ** Calls whose attempts are known *)

(** C1, as amended. For every attempt bound [N] and expected status code:
    when the request context answers with the expected status code for the
    first time on attempt [k], [1 <= k <= N] (the earlier attempts came
    back with other status codes) and the body of that response parses and
    is accepted by the schema, each of [getAPI], [postAPI], [putAPI] and
    [deleteAPI] returns exactly the response of attempt [k], and the call
    has sent exactly [k] requests.  The condition on the body is needed:
    a matching status code alone does not make the call return. *)
Theorem first_match_is_returned :
  forall (h : helper) (request : APIRequestContext) (url : string)
         (expected : Z) (schema : ZodTypeAny) (N : Z) (k : nat)
         (t : trace) (r : APIResponse) (v v' : Json),
    (1 <= k)%nat -> Z.of_nat k <= N ->
    (forall j, (1 <= j < k)%nat ->
       mismatched request (request_of h url) expected t j) ->
    attempt_outcome request (request_of h url) t k = Normal r ->
    status r = expected ->
    json r = Normal v -> schema v = Normal v' ->
    exists new,
      invoke h request url expected schema (Some N) t = (Normal r, t ++ new)
      /\ requests new = repeat (request_of h url) k.
Proof.
  intros h request url expected schema N k t r v v' Hk HN Hfail Hr Hs Hj Hv.
  destruct (invoke_reaches h request url expected schema N k t Hk HN Hfail)
    as [Hrun Hat].
  rewrite Hr in Hat.
  exists (failures (request_of h url) 1 (k - 1)
          ++ [Sent (request_of h url); ReadJson r; Validated v]).
  split.
  - rewrite Hrun, app_assoc. eapply run_returns; eassumption.
  - now apply requests_reached.
Qed.

Lemma first_match_is_returned_witness :
  exists new,
    invoke (GetAPI None None) service_recovering logout_url 200
      expectedLoginLogoutUserResponseSchema (Some 5) []
    = (Normal (answer 200 ok_body), [] ++ new)
    /\ requests new = repeat (request_of (GetAPI None None) logout_url) 3.
Proof.
  apply (first_match_is_returned (GetAPI None None) service_recovering
           logout_url 200 expectedLoginLogoutUserResponseSchema 5 3 []
           (answer 200 ok_body) ok_body ok_body).
  - lia.
  - lia.
  - intros j Hj. exists (answer 500 JNull).
    assert (j = 1%nat \/ j = 2%nat) as [-> | ->] by lia;
      (split; [reflexivity | discriminate]).
  - reflexivity.
  - reflexivity.
  - reflexivity.
  - reflexivity.
Defined.

(** C1, as first stated, fails: a matching status code alone does not make
    the call return.  With the retry count 5, the service answers the
    first request of [postAPI] with 500 and the second with 200 and a body
    that the schema rejects; attempt 2 is the first with the expected
    status code, yet the call returns no response: it throws the error of
    the schema. *)
Lemma matching_status_alone_does_not_return :
  let c := request_of (PostAPI JNull) logout_url in
  (forall j, (1 <= j < 2)%nat -> mismatched service_wrong_body c 200 [] j)
  /\ attempt_outcome service_wrong_body c [] 2
     = Normal (answer 200 wrong_body)
  /\ status (answer 200 wrong_body) = 200
  /\ fst (invoke (PostAPI JNull) service_wrong_body logout_url 200
            expectedLoginLogoutUserResponseSchema (Some 5) [])
     = Throw ZodError
  /\ ~ exists new,
        invoke (PostAPI JNull) service_wrong_body logout_url 200
          expectedLoginLogoutUserResponseSchema (Some 5) []
        = (Normal (answer 200 wrong_body), [] ++ new)
        /\ requests new = repeat c 2.
Proof.
  cbn zeta. split; [| split; [| split; [| split]]].
  - intros j Hj. exists (answer 500 JNull).
    assert (j = 1%nat) as -> by lia.
    split; [reflexivity | discriminate].
  - reflexivity.
  - reflexivity.
  - vm_compute. reflexivity.
  - intros (new & Hrun & _).
    apply (f_equal fst) in Hrun. vm_compute in Hrun. discriminate Hrun.
Qed.

(** C2. For every attempt bound [N >= 1]: when none of the [N] attempts
    comes back with the expected status code, each helper throws, once the
    loop is left, the error whose message is "Max retries reached. API call
    failed." (in lower case it begins with "max retries reached"), and
    exactly [N] requests have been sent. *)
Theorem no_match_exhausts_the_bound :
  forall (h : helper) (request : APIRequestContext) (url : string)
         (expected : Z) (schema : ZodTypeAny) (N : Z) (t : trace),
    1 <= N ->
    (forall j, (1 <= j <= Z.to_nat N)%nat ->
       mismatched request (request_of h url) expected t j) ->
    exists e new,
      invoke h request url expected schema (Some N) t = (Throw e, t ++ new)
      /\ e = Error "Max retries reached. API call failed."
      /\ prefix "max retries reached" (lower (message e)) = true
      /\ requests new = repeat (request_of h url) (Z.to_nat N)
      /\ last new (Sent (request_of h url))
         = Logged (diagnostic N url).
Proof.
  intros h request url expected schema N t HN Hfail.
  exists exhausted, (failures (request_of h url) 1 (Z.to_nat N)).
  split; [| split; [reflexivity | split; [reflexivity | split]]].
  - rewrite invoke_spec_call. unfold spec_call, default.
    replace (Z.to_nat N) with (Z.to_nat N + 0)%nat at 1 by lia.
    rewrite run_failures; [reflexivity |].
    intros j Hj. destruct (Hfail (S j)) as (r & Hr & Hs); [lia |].
    now exists r.
  - apply requests_failures.
  - destruct (Z.to_nat N) as [| m] eqn:Hm; [lia |].
    rewrite failures_snoc, target_request_of.
    replace (1 + Z.of_nat m) with N by lia.
    change [Sent (request_of h url); Logged (diagnostic N url)]
      with ([Sent (request_of h url)] ++ [Logged (diagnostic N url)]).
    now rewrite app_assoc, last_last.
Qed.

Lemma no_match_exhausts_the_bound_witness :
  exists e new,
    invoke DeleteAPI service_down logout_url 200
      expectedLoginLogoutUserResponseSchema (Some 5) []
    = (Throw e, [] ++ new)
    /\ e = Error "Max retries reached. API call failed."
    /\ prefix "max retries reached" (lower (message e)) = true
    /\ requests new = repeat (request_of DeleteAPI logout_url) (Z.to_nat 5)
    /\ last new (Sent (request_of DeleteAPI logout_url))
       = Logged (diagnostic 5 logout_url).
Proof.
  apply (no_match_exhausts_the_bound DeleteAPI service_down logout_url 200
           expectedLoginLogoutUserResponseSchema 5 []).
  - lia.
  - intros j Hj. exists (answer 404 JNull).
    split; [reflexivity | discriminate].
Defined.

(** C3. For every attempt bound [N]: when attempt [k], [1 <= k <= N], is the first
    to come back with the expected status code and the schema rejects the
    parsed body by throwing [e], each helper throws that same [e] (not the
    exhaustion error) without a further attempt: exactly [k] requests have
    been sent. *)
Theorem schema_failure_is_immediate :
  forall (h : helper) (request : APIRequestContext) (url : string)
         (expected : Z) (schema : ZodTypeAny) (N : Z) (k : nat)
         (t : trace) (r : APIResponse) (v : Json) (e : exception),
    (1 <= k)%nat -> Z.of_nat k <= N ->
    (forall j, (1 <= j < k)%nat ->
       mismatched request (request_of h url) expected t j) ->
    attempt_outcome request (request_of h url) t k = Normal r ->
    status r = expected ->
    json r = Normal v -> schema v = Throw e ->
    exists new,
      invoke h request url expected schema (Some N) t = (Throw e, t ++ new)
      /\ requests new = repeat (request_of h url) k
      /\ validated new = [v].
Proof.
  intros h request url expected schema N k t r v e Hk HN Hfail Hr Hs Hj Hv.
  destruct (invoke_reaches h request url expected schema N k t Hk HN Hfail)
    as [Hrun Hat].
  rewrite Hr in Hat.
  exists (failures (request_of h url) 1 (k - 1)
          ++ [Sent (request_of h url); ReadJson r; Validated v]).
  split; [| split].
  - rewrite Hrun, app_assoc. eapply run_schema_throws; eassumption.
  - now apply requests_reached.
  - now rewrite validated_app, validated_failures.
Qed.

Lemma schema_failure_is_immediate_witness :
  exists new,
    invoke (PostAPI JNull) service_wrong_body logout_url 200
      expectedLoginLogoutUserResponseSchema (Some 5) []
    = (Throw ZodError, [] ++ new)
    /\ requests new = repeat (request_of (PostAPI JNull) logout_url) 2
    /\ validated new = [wrong_body].
Proof.
  apply (schema_failure_is_immediate (PostAPI JNull) service_wrong_body
           logout_url 200 expectedLoginLogoutUserResponseSchema 5 2 []
           (answer 200 wrong_body) wrong_body ZodError).
  - lia.
  - lia.
  - intros j Hj. exists (answer 500 JNull).
    assert (j = 1%nat) as -> by lia.
    split; [reflexivity | discriminate].
  - reflexivity.
  - reflexivity.
  - reflexivity.
  - reflexivity.
Defined.

(** C8. When the request context throws [e] on attempt [k <= N] (the
    earlier attempts came back with other status codes), each helper throws
    that [e] at once: the request of attempt [k] is the last one sent, and
    the console holds the lines of attempts [1] to [k - 1] only. *)
Theorem request_error_propagates :
  forall (h : helper) (request : APIRequestContext) (url : string)
         (expected : Z) (schema : ZodTypeAny) (N : Z) (k : nat)
         (t : trace) (e : exception),
    (1 <= k)%nat -> Z.of_nat k <= N ->
    (forall j, (1 <= j < k)%nat ->
       mismatched request (request_of h url) expected t j) ->
    attempt_outcome request (request_of h url) t k = Throw e ->
    exists new,
      invoke h request url expected schema (Some N) t = (Throw e, t ++ new)
      /\ requests new = repeat (request_of h url) k
      /\ console new
         = map (fun j => diagnostic (Z.of_nat j) url) (seq 1 (k - 1))
      /\ parsed new = [] /\ validated new = [].
Proof.
  intros h request url expected schema N k t e Hk HN Hfail He.
  destruct (invoke_reaches h request url expected schema N k t Hk HN Hfail)
    as [Hrun Hat].
  rewrite He in Hat.
  exists (failures (request_of h url) 1 (k - 1) ++ [Sent (request_of h url)]).
  split; [| split; [| split; [| split]]].
  - rewrite Hrun, app_assoc. now apply run_request_throws.
  - now apply requests_reached.
  - now apply console_reached.
  - now rewrite parsed_app, parsed_failures.
  - now rewrite validated_app, validated_failures.
Qed.

Lemma request_error_propagates_witness :
  exists new,
    invoke (PutAPI JNull) service_unreachable logout_url 200
      expectedLoginLogoutUserResponseSchema (Some 5) []
    = (Throw connection_reset, [] ++ new)
    /\ requests new = repeat (request_of (PutAPI JNull) logout_url) 2
    /\ console new
       = map (fun j => diagnostic (Z.of_nat j) logout_url) (seq 1 (2 - 1))
    /\ parsed new = [] /\ validated new = [].
Proof.
  apply (request_error_propagates (PutAPI JNull) service_unreachable
           logout_url 200 expectedLoginLogoutUserResponseSchema 5 2 []
           connection_reset).
  - lia.
  - lia.
  - intros j Hj. exists (answer 500 JNull).
    assert (j = 1%nat) as -> by lia.
    split; [reflexivity | discriminate].
  - reflexivity.
Defined.

(** C9. For every [retryCount <= 0], each helper sends no request, writes no
    line and throws the exhaustion error: the trace is left as it was.  The
    lower bound of 1 on the attempt count is not enforced. *)
Theorem nonpositive_bound_sends_nothing :
  forall (h : helper) (request : APIRequestContext) (url : string)
         (expected : Z) (schema : ZodTypeAny) (retryCount : Z) (t : trace),
    retryCount <= 0 ->
    invoke h request url expected schema (Some retryCount) t
    = (Throw (Error "Max retries reached. API call failed."), t).
Proof.
  intros h request url expected schema retryCount t Hle.
  rewrite invoke_loop. unfold default.
  now rewrite for_lt_leave by lia.
Qed.

Lemma nonpositive_bound_sends_nothing_witness :
  invoke (GetAPI None None) service_recovering logout_url 200
    expectedLoginLogoutUserResponseSchema (Some (-1)) []
  = (Throw (Error "Max retries reached. API call failed."), []).
Proof.
  apply (nonpositive_bound_sends_nothing (GetAPI None None)
           service_recovering logout_url 200
           expectedLoginLogoutUserResponseSchema (-1) []).
  lia.
Defined.

(** ** Every call *)

Section EveryExecution.

Variables (request : APIRequestContext) (c : call).
Variables (expected : Z) (schema : ZodTypeAny).

Let exec := execution request c expected schema.

Lemma execution_requests_bound n sent a res new :
  exec n sent a res new -> (List.length (requests new) <= n)%nat.
Proof. induction 1; unfold requests in *; cbn in *; lia. Qed.

(** Only the response of the last request sent is parsed, its status
    code is the expected one, and only its parsed body is validated. *)
Lemma execution_parses_match n sent a res new :
  exec n sent a res new ->
  (forall r, In r (parsed new) ->
     status r = expected
     /\ exists i, List.length (requests new) = S i
                  /\ request (sent + i)%nat c = Normal r)
  /\ (forall v, In v (validated new) ->
        exists r, In r (parsed new) /\ json r = Normal v)
  /\ (List.length (parsed new) <= 1)%nat
  /\ (List.length (validated new) <= 1)%nat.
Proof.
  induction 1 as [ sent a | n sent a e He | n sent a r e Hr Hs Hj
                 | n sent a r v e Hr Hs Hj Hv | n sent a r v v' Hr Hs Hj Hv
                 | n sent a r res new Hr Hs Hex IH ]; cbn.
  - repeat split; (contradiction || lia).
  - repeat split; (contradiction || lia).
  - repeat split; try (contradiction || lia).
    + destruct H as [<- | []]. exact Hs.
    + destruct H as [<- | []]. exists 0%nat.
      now rewrite Nat.add_0_r.
  - repeat split; try (contradiction || lia).
    + destruct H as [<- | []]. exact Hs.
    + destruct H as [<- | []]. exists 0%nat.
      now rewrite Nat.add_0_r.
    + intros w [<- | []]. exists r. split; [now left | exact Hj].
  - repeat split; try (contradiction || lia).
    + destruct H as [<- | []]. exact Hs.
    + destruct H as [<- | []]. exists 0%nat.
      now rewrite Nat.add_0_r.
    + intros w [<- | []]. exists r. split; [now left | exact Hj].
  - destruct IH as (Hp & Hv & Hlp & Hlv).
    repeat split; try assumption.
    + now apply Hp.
    + destruct (Hp r0 H) as (_ & i & Hlen & Hi).
      exists (S i). split; [unfold requests in Hlen; now rewrite Hlen |].
      now rewrite <- Nat.add_succ_comm.
Qed.

(** The console holds one line for each of the first [m] attempts, which
    all came back with another status code; at most one more attempt
    was made, and it did not come back with another status code. *)
Lemma execution_console n sent a res new :
  exec n sent a res new ->
  exists m,
    console new
    = map (fun j => diagnostic (a + Z.of_nat j) (target c)) (seq 0 m)
    /\ (forall j, (j < m)%nat ->
          exists r, request (sent + j)%nat c = Normal r
                    /\ status r <> expected)
    /\ (List.length (requests new) = m
        \/ (List.length (requests new) = S m
            /\ ~ exists r, request (sent + m)%nat c = Normal r
                           /\ status r <> expected)).
Proof.
  induction 1 as [ sent a | n sent a e He | n sent a r e Hr Hs Hj
                 | n sent a r v e Hr Hs Hj Hv | n sent a r v v' Hr Hs Hj Hv
                 | n sent a r res new Hr Hs Hex IH ].
  - exists 0%nat. cbn. repeat split; [lia | now left].
  - exists 0%nat. cbn. repeat split; [lia | right; split; [reflexivity |]].
    rewrite Nat.add_0_r. intros (r & Hr & _). congruence.
  - exists 0%nat. cbn. repeat split; [lia | right; split; [reflexivity |]].
    rewrite Nat.add_0_r. intros (r' & Hr' & Hs'). congruence.
  - exists 0%nat. cbn. repeat split; [lia | right; split; [reflexivity |]].
    rewrite Nat.add_0_r. intros (r' & Hr' & Hs'). congruence.
  - exists 0%nat. cbn. repeat split; [lia | right; split; [reflexivity |]].
    rewrite Nat.add_0_r. intros (r' & Hr' & Hs'). congruence.
  - destruct IH as (m & Hc & Hfail & Hlast).
    exists (S m). split; [| split].
    + cbn [console flat_map app seq map].
      rewrite Z.add_0_r. f_equal.
      change (flat_map _ new) with (console new).
      rewrite Hc, <- seq_shift, map_map.
      apply map_ext. intros j. f_equal. lia.
    + intros [| j] Hj.
      * rewrite Nat.add_0_r. now exists r.
      * rewrite <- Nat.add_succ_comm. apply Hfail. lia.
    + cbn [requests flat_map app List.length].
      change (flat_map _ new) with (requests new).
      rewrite <- Nat.add_succ_comm.
      destruct Hlast as [-> | [-> Hno]]; [now left | now right].
Qed.

End EveryExecution.

(** Every call of a helper is an execution of its loop, started with the
    whole budget at attempt number 1. *)
Lemma invoke_execution h request url expected schema retryCount t :
  exists res new,
    invoke h request url expected schema retryCount t = (res, t ++ new)
    /\ execution request (request_of h url) expected schema
         (Z.to_nat (default 5 retryCount)) (List.length (requests t)) 1
         res new.
Proof.
  rewrite invoke_spec_call. apply run_execution.
Qed.

(** C4. On every execution of a helper, a response body is parsed only
    when it is the response of the last request sent and its status code is
    the expected one, and the schema validator only receives the parsed
    body of such a response; there is at most one parse and at most one
    validation per call.  No response with another status code is parsed
    or validated. *)
Theorem parse_and_validate_only_on_match :
  forall (h : helper) (request : APIRequestContext) (url : string)
         (expected : Z) (schema : ZodTypeAny) (retryCount : option Z)
         (t : trace),
    exists res new,
      invoke h request url expected schema retryCount t = (res, t ++ new)
      /\ (forall r, In r (parsed new) ->
            status r = expected
            /\ attempt_outcome request (request_of h url) t
                 (List.length (requests new)) = Normal r)
      /\ (forall v, In v (validated new) ->
            exists r, In r (parsed new) /\ json r = Normal v)
      /\ (List.length (parsed new) <= 1)%nat
      /\ (List.length (validated new) <= 1)%nat.
Proof.
  intros h request url expected schema retryCount t.
  destruct (invoke_execution h request url expected schema retryCount t)
    as (res & new & Hrun & Hex).
  apply execution_parses_match in Hex.
  destruct Hex as (Hp & Hv & Hlp & Hlv).
  exists res, new. repeat split; try assumption.
  - now apply Hp.
  - destruct (Hp r) as (_ & i & Hlen & Hi); [assumption |].
    unfold attempt_outcome. now rewrite Hlen.
Qed.

(** C5. On every execution of a helper the console receives, in order,
    exactly one line "Attempt j failed. Retrying for url..." for each of
    the attempts [1..m] that came back with another status code.  Either
    these are all the attempts made, or one more attempt was made, which
    did not come back with another status code (it matched, with a body
    that was accepted or rejected, or the request threw): that attempt has
    no line. *)
Theorem one_diagnostic_per_mismatch :
  forall (h : helper) (request : APIRequestContext) (url : string)
         (expected : Z) (schema : ZodTypeAny) (retryCount : option Z)
         (t : trace),
    exists res new m,
      invoke h request url expected schema retryCount t = (res, t ++ new)
      /\ console new
         = map (fun j => ("Attempt " ++ number_to_string (Z.of_nat j)
                          ++ " failed. Retrying for " ++ url ++ "...")%string)
               (seq 1 m)
      /\ (forall j, (1 <= j <= m)%nat ->
            mismatched request (request_of h url) expected t j)
      /\ (List.length (requests new) = m
          \/ (List.length (requests new) = S m
              /\ ~ mismatched request (request_of h url) expected t (S m))).
Proof.
  intros h request url expected schema retryCount t.
  destruct (invoke_execution h request url expected schema retryCount t)
    as (res & new & Hrun & Hex).
  apply execution_console in Hex.
  destruct Hex as (m & Hc & Hfail & Hlast).
  exists res, new, m. split; [exact Hrun | split; [| split]].
  - rewrite Hc, target_request_of, <- seq_shift, map_map.
    apply map_ext. intros j. unfold diagnostic.
    now replace (1 + Z.of_nat j) with (Z.of_nat (S j)) by lia.
  - intros [| j] Hj; [lia |]. apply Hfail. lia.
  - exact Hlast.
Qed.


(** C7. The four helpers are instances of the one operation of the
    specification: each of them is that operation applied to its own
    request, which differs from the others in the HTTP method and in the
    options only ([GET] carries query parameters and headers, [POST] and
    [PUT] carry a body, [DELETE] carries no options). *)
Theorem four_helpers_one_operation :
  forall (request : APIRequestContext) (url : string) (expected : Z)
         (schema : ZodTypeAny) (retryCount : option Z) (t : trace),
    (forall parameters headers,
       getAPI request url expected schema parameters headers retryCount t
       = spec_call request
           {| verb := GET; target := url;
              options := Some {| params := Some (default [] parameters);
                                 headers := Some (default [] headers);
                                 data := None |} |}
           expected schema retryCount t)
    /\ (forall requestBody,
          postAPI request url requestBody expected schema retryCount t
          = spec_call request
              {| verb := POST; target := url;
                 options := Some {| params := None; headers := None;
                                    data := Some requestBody |} |}
              expected schema retryCount t)
    /\ (forall requestBody,
          putAPI request url requestBody expected schema retryCount t
          = spec_call request
              {| verb := PUT; target := url;
                 options := Some {| params := None; headers := None;
                                    data := Some requestBody |} |}
              expected schema retryCount t)
    /\ deleteAPI request url expected schema retryCount t
       = spec_call request
           {| verb := DELETE; target := url; options := None |}
           expected schema retryCount t.
Proof.
  intros request url expected schema retryCount t.
  split; [| split; [| split]].
  - intros parameters headers.
    exact (invoke_spec_call (GetAPI parameters headers) request url
             expected schema retryCount t).
  - intros requestBody.
    exact (invoke_spec_call (PostAPI requestBody) request url
             expected schema retryCount t).
  - intros requestBody.
    exact (invoke_spec_call (PutAPI requestBody) request url
             expected schema retryCount t).
  - exact (invoke_spec_call DeleteAPI request url
             expected schema retryCount t).
Qed.

(** ** The fixture builder *)

Lemma prefix_append (s rest : string) : prefix s (s ++ rest)%string = true.
Proof.
  induction s as [| ch s IH]; cbn.
  - now destruct rest.
  - destruct (ascii_dec ch ch) as [_ | Hne]; [exact IH | contradiction].
Qed.

Section FixtureProperties.

Context {G : Type} `{Faker G}.
Hypothesis in_range : number_int_in_range.

Lemma userRequestBody_well_formed (g : G) :
  well_formed_user (fst (userRequestBody g)).
Proof.
  unfold userRequestBody.
  pose proof (in_range 1 100000 g ltac:(lia)) as Hid.
  destruct (number_int 1 100000 g) as [i g1].
  destruct (string_uuid g1) as [uuid g2].
  destruct (person_firstName g2) as [fn g3].
  destruct (person_lastName g3) as [ln g4].
  destruct (internet_email g4) as [em g5].
  destruct (internet_password g5) as [pw g6].
  destruct (phone_number g6) as [ph g7].
  pose proof (in_range 0 10 g7 ltac:(lia)) as Hst.
  destruct (number_int 0 10 g7) as [st g8].
  repeat split; cbn [fst id userStatus username] in *;
    try lia; try apply prefix_append.
Qed.

Lemma createRandomUsers_for_step amountOfUsers i usersArray g :
  i < amountOfUsers ->
  createRandomUsers_for amountOfUsers i usersArray g
  = createRandomUsers_for amountOfUsers (i + 1)
      (usersArray ++ [fst (userRequestBody g)]) (snd (userRequestBody g)).
Proof.
  intros Hlt. rewrite createRandomUsers_for_equation_1.
  destruct (Z_lt_dec i amountOfUsers) as [l | n]; [| contradiction].
  now rewrite createRandomUsers_for_clause_1_equation_1.
Qed.

Lemma createRandomUsers_for_done amountOfUsers i usersArray g :
  amountOfUsers <= i ->
  createRandomUsers_for amountOfUsers i usersArray g = (usersArray, g).
Proof.
  intros Hge. rewrite createRandomUsers_for_equation_1.
  destruct (Z_lt_dec i amountOfUsers) as [l | n]; [lia |].
  now rewrite createRandomUsers_for_clause_1_equation_2.
Qed.

(** The loop adds one well-formed user per remaining iteration. *)
Lemma createRandomUsers_for_spec (k : nat) :
  forall amountOfUsers i usersArray g,
    Z.to_nat (amountOfUsers - i) = k ->
    Forall well_formed_user usersArray ->
    let users := fst (createRandomUsers_for amountOfUsers i usersArray g) in
    List.length users = (List.length usersArray + k)%nat
    /\ Forall well_formed_user users.
Proof.
  induction k as [| k IH]; intros amountOfUsers i usersArray g Hk Hwf.
  - rewrite createRandomUsers_for_done by lia. cbn. split; [lia | exact Hwf].
  - rewrite createRandomUsers_for_step by lia.
    destruct (IH amountOfUsers (i + 1)
                (usersArray ++ [fst (userRequestBody g)])
                (snd (userRequestBody g))) as [Hlen Hall].
    + lia.
    + apply Forall_app. split; [exact Hwf |].
      constructor; [apply userRequestBody_well_formed | constructor].
    + cbn zeta. split; [| exact Hall].
      rewrite Hlen, length_app. cbn. lia.
Qed.

End FixtureProperties.

Lemma seeded_faker_in_range : @number_int_in_range Z seeded_faker.
Proof.
  intros min max g Hle. cbn.
  pose proof (Z.mod_pos_bound g (max - min + 1) ltac:(lia)). lia.
Qed.

(** C10. For every integer [n], [createRandomUsersRequestBody n] returns an
    array of exactly [max n 0] users (the empty array when [n <= 0]); every
    user has an [id] between 1 and 100000, a [userStatus] between 0 and 10,
    and a [username] that begins with
    "TestUserName-test-automation-delete-me-".  The bounds are those that
    [faker.number.int] is documented to respect. *)
Theorem createRandomUsersRequestBody_shape :
  forall (G : Type) (F : Faker G),
    @number_int_in_range G F ->
    forall (n : Z) (g : G),
      let users := fst (createRandomUsersRequestBody n g) in
      Z.of_nat (List.length users) = Z.max n 0
      /\ (n <= 0 -> users = [])
      /\ Forall (fun u =>
                   1 <= id u <= 100000
                   /\ 0 <= userStatus u <= 10
                   /\ prefix "TestUserName-test-automation-delete-me-"
                        (username u) = true) users.
Proof.
  intros G F Hrange n g. unfold createRandomUsersRequestBody. cbn zeta.
  destruct (createRandomUsers_for_spec Hrange (Z.to_nat (n - 0)) n 0 [] g)
    as [Hlen Hall]; [reflexivity | constructor |].
  cbn zeta in Hlen, Hall. split; [| split].
  - rewrite Hlen. cbn [List.length]. lia.
  - intros Hn. apply length_zero_iff_nil. rewrite Hlen. cbn. lia.
  - exact Hall.
Qed.

Lemma createRandomUsersRequestBody_shape_witness :
  let users := fst (createRandomUsersRequestBody 3 42) in
  Z.of_nat (List.length users) = Z.max 3 0
  /\ (3 <= 0 -> users = [])
  /\ Forall (fun u =>
               1 <= id u <= 100000
               /\ 0 <= userStatus u <= 10
               /\ prefix "TestUserName-test-automation-delete-me-"
                    (username u) = true) users.
Proof.
  exact (createRandomUsersRequestBody_shape Z seeded_faker
           seeded_faker_in_range 3 42).
Defined.

(** ** The scenarios of the specification, evaluated *)

(** 500 on attempts 1 and 2, then 200 with a valid body: the response of
    attempt 3 is returned after two console lines. *)
Example scenario_recovering :
  getAPI service_recovering logout_url 200
    expectedLoginLogoutUserResponseSchema None None None []
  = (Normal (answer 200 ok_body),
     let c := request_of (GetAPI None None) logout_url in
     [Sent c;
      Logged "Attempt 1 failed. Retrying for https://petstore.swagger.io/v2/user/logout...";
      Sent c;
      Logged "Attempt 2 failed. Retrying for https://petstore.swagger.io/v2/user/logout...";
      Sent c; ReadJson (answer 200 ok_body); Validated ok_body]).
Proof. vm_compute. reflexivity. Qed.

(** 404 on all five attempts: five requests, five lines, exhaustion. *)
Example scenario_down :
  let '(res, t) :=
    deleteAPI service_down logout_url 200
      expectedLoginLogoutUserResponseSchema None [] in
  res = Throw (Error "Max retries reached. API call failed.")
  /\ List.length (requests t) = 5%nat
  /\ List.length (console t) = 5%nat.
Proof. vm_compute. repeat split. Qed.

(** 200 on attempt 1 with a body the schema rejects: one request, the
    validation error, nothing on the console. *)
Example scenario_wrong_body :
  postAPI (fun _ _ => Normal (answer 200 wrong_body)) logout_url JNull 200
    expectedLoginLogoutUserResponseSchema None []
  = (Throw ZodError,
     [Sent (request_of (PostAPI JNull) logout_url);
      ReadJson (answer 200 wrong_body); Validated wrong_body]).
Proof. vm_compute. reflexivity. Qed.

(** Two users from the seeded generator. *)
Example scenario_two_users :
  map (fun u => (id u, userStatus u))
      (fst (createRandomUsersRequestBody 2 42))
  = [(43, 2); (31267, 2)].
Proof. vm_compute. reflexivity. Qed.

(** * Further properties *)

(** ** More about the helpers *)

Section MoreRuns.

Variables (request : APIRequestContext) (c : call).
Variables (expected : Z) (schema : ZodTypeAny).

Let exec := execution request c expected schema.
Let run := spec_attempts request c expected schema.

(** A response that is returned was checked: it is the answer to the last
    request sent, its status code is the expected one, and its body was
    parsed and accepted by the schema. *)
Lemma execution_returned n sent a res new :
  exec n sent a res new ->
  forall r, res = Normal r ->
    status r = expected
    /\ (exists i, List.length (requests new) = S i
                  /\ request (sent + i)%nat c = Normal r)
    /\ exists v v', json r = Normal v /\ schema v = Normal v'
                    /\ parsed new = [r] /\ validated new = [v].
Proof.
  induction 1 as [ sent a | n sent a e He | n sent a r0 e Hr Hs Hj
                 | n sent a r0 v e Hr Hs Hj Hv
                 | n sent a r0 v v' Hr Hs Hj Hv
                 | n sent a r0 res new Hr Hs Hex IH ];
    intros r Hres; try discriminate.
  - injection Hres as <-. split; [exact Hs | split].
    + exists 0%nat. rewrite Nat.add_0_r. now split.
    + exists v, v'. now repeat split.
  - destruct (IH r Hres) as (Hst & (i & Hlen & Hi) & v & v' & Hj & Hv & Hp & Hval).
    split; [exact Hst | split].
    + exists (S i). split.
      * change (requests (Sent c :: Logged (diagnostic a (target c)) :: new))
          with (c :: requests new).
        cbn [List.length]. now rewrite Hlen.
      * now rewrite <- Nat.add_succ_comm.
    + exists v, v'. now repeat split.
Qed.

(** Every request of an execution is the same request. *)
Lemma execution_requests_repeat n sent a res new :
  exec n sent a res new ->
  requests new = repeat c (List.length (requests new)).
Proof.
  induction 1 as [ | | | | | n sent a r0 res new Hr Hs Hex IH ];
    try reflexivity.
  change (requests (Sent c :: Logged (diagnostic a (target c)) :: new))
    with (c :: requests new).
  cbn [List.length repeat]. now rewrite <- IH.
Qed.

(** The events of an execution, in order: failed attempts, each a request
    followed by its console line, then at most one attempt that ends the
    call. *)
Lemma execution_shape n sent a res new :
  exec n sent a res new ->
  exists m tail,
    new = failures c a m ++ tail
    /\ (tail = []
        \/ tail = [Sent c]
        \/ (exists r, tail = [Sent c; ReadJson r])
        \/ (exists r v, tail = [Sent c; ReadJson r; Validated v])).
Proof.
  induction 1 as [ sent a | n sent a e He | n sent a r0 e Hr Hs Hj
                 | n sent a r0 v e Hr Hs Hj Hv
                 | n sent a r0 v v' Hr Hs Hj Hv
                 | n sent a r0 res new Hr Hs Hex IH ].
  - exists 0%nat, []. split; [reflexivity | now left].
  - exists 0%nat, [Sent c]. split; [reflexivity | right; now left].
  - exists 0%nat, [Sent c; ReadJson r0].
    split; [reflexivity | right; right; left; now exists r0].
  - exists 0%nat, [Sent c; ReadJson r0; Validated v].
    split; [reflexivity | right; right; right; now exists r0, v].
  - exists 0%nat, [Sent c; ReadJson r0; Validated v].
    split; [reflexivity | right; right; right; now exists r0, v].
  - destruct IH as (m & tail & -> & Htail).
    exists (S m), tail. split; [reflexivity | exact Htail].
Qed.

(** One attempt of a run, by cases. *)
Lemma run_step n a t :
  run (S n) a t
  = match request (List.length (requests t)) c with
    | Throw e => (Throw e, t ++ [Sent c])
    | Normal r =>
        if status r =? expected then
          match json r with
          | Throw e => (Throw e, t ++ [Sent c; ReadJson r])
          | Normal v =>
              (match schema v with
               | Throw e => Throw e
               | Normal _ => Normal r
               end, t ++ [Sent c; ReadJson r; Validated v])
          end
        else run n (a + 1) (t ++ [Sent c; Logged (diagnostic a (target c))])
    end.
Proof.
  unfold run. cbn [spec_attempts].
  unfold bind, send, response_json, schema_parse, console_log, ret.
  destruct (request _ c) as [r | e]; [| reflexivity].
  destruct (status r =? expected).
  - destruct (json r) as [v | e]; rewrite <- ?app_assoc; [| reflexivity].
    destruct (schema v); now rewrite <- ?app_assoc.
  - now rewrite <- app_assoc.
Qed.

(** A run that returns a response returns it with any larger budget. *)
Lemma run_more_budget (n : nat) :
  forall a t r t',
    run n a t = (Normal r, t') ->
    forall d, run (n + d)%nat a t = (Normal r, t').
Proof.
  induction n as [| n IH]; intros a t r t' Hrun d.
  - discriminate Hrun.
  - change (S n + d)%nat with (S (n + d)).
    rewrite run_step in Hrun |- *.
    destruct (request _ c) as [r0 | e]; [| exact Hrun].
    destruct (status r0 =? expected); [exact Hrun |].
    now apply IH.
Qed.

End MoreRuns.

(** The value that [parse] returns is not used: schemas that accept the
    same values and throw the same errors cannot be told apart. *)
Lemma run_schema_output request c expected schema1 schema2 :
  (forall v, match schema1 v, schema2 v with
             | Normal _, Normal _ => True
             | Throw e1, Throw e2 => e1 = e2
             | _, _ => False
             end) ->
  forall n a t,
    spec_attempts request c expected schema1 n a t
    = spec_attempts request c expected schema2 n a t.
Proof.
  intros Hsame n. induction n as [| n IH]; intros a t; [reflexivity |].
  rewrite !run_step.
  destruct (request _ c) as [r | e]; [| reflexivity].
  destruct (status r =? expected); [| apply IH].
  destruct (json r) as [v | e]; [| reflexivity].
  specialize (Hsame v).
  destruct (schema1 v), (schema2 v); try contradiction;
    [reflexivity | now subst].
Qed.

(** X1. When the first attempt with the expected status code is attempt
    [k] and [response.json()] throws [e] on its body, each helper throws
    that [e] at once: [k] requests were sent, the response was read and
    the schema was never asked. *)
Theorem unreadable_body_is_immediate :
  forall (h : helper) (request : APIRequestContext) (url : string)
         (expected : Z) (schema : ZodTypeAny) (N : Z) (k : nat)
         (t : trace) (r : APIResponse) (e : exception),
    (1 <= k)%nat -> Z.of_nat k <= N ->
    (forall j, (1 <= j < k)%nat ->
       mismatched request (request_of h url) expected t j) ->
    attempt_outcome request (request_of h url) t k = Normal r ->
    status r = expected ->
    json r = Throw e ->
    exists new,
      invoke h request url expected schema (Some N) t = (Throw e, t ++ new)
      /\ requests new = repeat (request_of h url) k
      /\ parsed new = [r]
      /\ validated new = [].
Proof.
  intros h request url expected schema N k t r e Hk HN Hfail Hr Hs Hj.
  destruct (invoke_reaches h request url expected schema N k t Hk HN Hfail)
    as [Hrun Hat].
  rewrite Hr in Hat.
  exists (failures (request_of h url) 1 (k - 1)
          ++ [Sent (request_of h url); ReadJson r]).
  split; [| split; [| split]].
  - rewrite Hrun, app_assoc. now apply run_json_throws.
  - now apply requests_reached.
  - now rewrite parsed_app, parsed_failures.
  - now rewrite validated_app, validated_failures.
Qed.

Lemma unreadable_body_is_immediate_witness :
  exists new,
    invoke DeleteAPI service_garbled logout_url 200
      expectedLoginLogoutUserResponseSchema (Some 5) []
    = (Throw SyntaxError, [] ++ new)
    /\ requests new = repeat (request_of DeleteAPI logout_url) 2
    /\ parsed new = [garbled 200]
    /\ validated new = [].
Proof.
  apply (unreadable_body_is_immediate DeleteAPI service_garbled logout_url
           200 expectedLoginLogoutUserResponseSchema 5 2 [] (garbled 200)
           SyntaxError).
  - lia.
  - lia.
  - intros j Hj. exists (answer 500 JNull).
    assert (j = 1%nat) as -> by lia.
    split; [reflexivity | discriminate].
  - reflexivity.
  - reflexivity.
  - reflexivity.
Defined.

(** X2. A response that a helper returns was checked: it answers the last
    request the call sent, its status code is the expected one, and its
    body was parsed and accepted by the schema. *)
Theorem returned_response_was_checked :
  forall (h : helper) (request : APIRequestContext) (url : string)
         (expected : Z) (schema : ZodTypeAny) (retryCount : option Z)
         (t t' : trace) (r : APIResponse),
    invoke h request url expected schema retryCount t = (Normal r, t') ->
    status r = expected
    /\ (exists v v', json r = Normal v /\ schema v = Normal v')
    /\ exists new,
         t' = t ++ new
         /\ (1 <= List.length (requests new))%nat
         /\ attempt_outcome request (request_of h url) t
              (List.length (requests new)) = Normal r.
Proof.
  intros h request url expected schema retryCount t t' r Hrun.
  destruct (invoke_execution h request url expected schema retryCount t)
    as (res & new & Hrun' & Hex).
  rewrite Hrun in Hrun'. injection Hrun' as <- ->.
  destruct (execution_returned _ _ _ _ _ _ _ _ _ Hex r eq_refl)
    as (Hst & (i & Hlen & Hi) & v & v' & Hj & Hv & _).
  split; [exact Hst | split; [now exists v, v' |]].
  exists new. split; [reflexivity | split; [lia |]].
  unfold attempt_outcome. now rewrite Hlen.
Qed.

Lemma returned_response_was_checked_witness :
  status (answer 200 ok_body) = 200
  /\ (exists v v', json (answer 200 ok_body) = Normal v
                   /\ expectedLoginLogoutUserResponseSchema v = Normal v')
  /\ exists new,
       snd (invoke (GetAPI None None) service_recovering logout_url 200
              expectedLoginLogoutUserResponseSchema None []) = [] ++ new
       /\ (1 <= List.length (requests new))%nat
       /\ attempt_outcome service_recovering
            (request_of (GetAPI None None) logout_url) []
            (List.length (requests new)) = Normal (answer 200 ok_body).
Proof.
  apply (returned_response_was_checked (GetAPI None None) service_recovering
           logout_url 200 expectedLoginLogoutUserResponseSchema None []).
  vm_compute. reflexivity.
Defined.

(** X3. Whatever the service does, a helper sends at most [retryCount]
    requests (none when [retryCount] is negative, at most 5 when it is left
    out), and every one of them is the same request. *)
Theorem requests_within_bound :
  forall (h : helper) (request : APIRequestContext) (url : string)
         (expected : Z) (schema : ZodTypeAny) (retryCount : option Z)
         (t : trace),
    exists res new,
      invoke h request url expected schema retryCount t = (res, t ++ new)
      /\ (List.length (requests new) <= Z.to_nat (default 5%Z retryCount))%nat
      /\ requests new
         = repeat (request_of h url) (List.length (requests new)).
Proof.
  intros h request url expected schema retryCount t.
  destruct (invoke_execution h request url expected schema retryCount t)
    as (res & new & Hrun & Hex).
  exists res, new. split; [exact Hrun | split].
  - eapply execution_requests_bound; eassumption.
  - eapply execution_requests_repeat; eassumption.
Qed.

(** X4. A call that returns a response with the retry count [N] returns
    the same response, after the same events, with any larger retry
    count. *)
Theorem larger_bound_keeps_success :
  forall (h : helper) (request : APIRequestContext) (url : string)
         (expected : Z) (schema : ZodTypeAny) (N N' : Z)
         (t t' : trace) (r : APIResponse),
    N <= N' ->
    invoke h request url expected schema (Some N) t = (Normal r, t') ->
    invoke h request url expected schema (Some N') t = (Normal r, t').
Proof.
  intros h request url expected schema N N' t t' r Hle.
  rewrite !invoke_spec_call. unfold spec_call, default. intros Hrun.
  replace (Z.to_nat N') with (Z.to_nat N + (Z.to_nat N' - Z.to_nat N))%nat
    by lia.
  now apply run_more_budget.
Qed.

Lemma larger_bound_keeps_success_witness :
  invoke (GetAPI None None) service_recovering logout_url 200
    expectedLoginLogoutUserResponseSchema (Some 7) []
  = (Normal (answer 200 ok_body),
     snd (invoke (GetAPI None None) service_recovering logout_url 200
            expectedLoginLogoutUserResponseSchema (Some 3) [])).
Proof.
  apply (larger_bound_keeps_success (GetAPI None None) service_recovering
           logout_url 200 expectedLoginLogoutUserResponseSchema 3 7).
  - lia.
  - vm_compute. reflexivity.
Defined.

(** X5. The value returned by [expectedSchema.parse] is not used: two
    schemas that accept the same values, and throw the same error on the
    values they reject, give the same result and the same events. *)
Theorem schema_output_is_discarded :
  forall (h : helper) (request : APIRequestContext) (url : string)
         (expected : Z) (schema1 schema2 : ZodTypeAny)
         (retryCount : option Z) (t : trace),
    (forall v, match schema1 v, schema2 v with
               | Normal _, Normal _ => True
               | Throw e1, Throw e2 => e1 = e2
               | _, _ => False
               end) ->
    invoke h request url expected schema1 retryCount t
    = invoke h request url expected schema2 retryCount t.
Proof.
  intros h request url expected schema1 schema2 retryCount t Hsame.
  rewrite !invoke_spec_call. unfold spec_call.
  now apply run_schema_output.
Qed.

Lemma schema_output_is_discarded_witness :
  invoke (PostAPI JNull) service_recovering logout_url 200
    expectedLoginLogoutUserResponseSchema None []
  = invoke (PostAPI JNull) service_recovering logout_url 200
      (forgetful expectedLoginLogoutUserResponseSchema) None [].
Proof.
  apply (schema_output_is_discarded (PostAPI JNull) service_recovering
           logout_url 200 expectedLoginLogoutUserResponseSchema
           (forgetful expectedLoginLogoutUserResponseSchema) None []).
  intros v. unfold forgetful.
  destruct (expectedLoginLogoutUserResponseSchema v); [exact I | reflexivity].
Defined.

(** X6. The events of a call come in this order: for each attempt with
    another status code, the request and then its console line; after
    them at most one more attempt, which is a request alone (it threw), a
    request and the reading of the body, or a request, the reading and the
    validation. *)
Theorem events_in_order :
  forall (h : helper) (request : APIRequestContext) (url : string)
         (expected : Z) (schema : ZodTypeAny) (retryCount : option Z)
         (t : trace),
    exists res new m tail,
      invoke h request url expected schema retryCount t = (res, t ++ new)
      /\ new = failures (request_of h url) 1 m ++ tail
      /\ (tail = []
          \/ tail = [Sent (request_of h url)]
          \/ (exists r, tail = [Sent (request_of h url); ReadJson r])
          \/ (exists r v, tail = [Sent (request_of h url); ReadJson r;
                                  Validated v])).
Proof.
  intros h request url expected schema retryCount t.
  destruct (invoke_execution h request url expected schema retryCount t)
    as (res & new & Hrun & Hex).
  apply execution_shape in Hex. destruct Hex as (m & tail & Hnew & Htail).
  now exists res, new, m, tail.
Qed.

(** ** More about the fixture builder *)

Section MoreFixtures.

Context {G : Type} `{Faker G}.

Lemma createRandomUsers_for_one_more (k : nat) :
  forall amountOfUsers i usersArray g,
    Z.to_nat (amountOfUsers - i) = k -> i <= amountOfUsers ->
    createRandomUsers_for (amountOfUsers + 1) i usersArray g
    = (fst (createRandomUsers_for amountOfUsers i usersArray g)
         ++ [fst (userRequestBody
                    (snd (createRandomUsers_for amountOfUsers i usersArray g)))],
       snd (userRequestBody
              (snd (createRandomUsers_for amountOfUsers i usersArray g)))).
Proof.
  induction k as [| k IH]; intros amountOfUsers i usersArray g Hk Hle.
  - rewrite (createRandomUsers_for_done amountOfUsers) by lia.
    rewrite createRandomUsers_for_step by lia.
    now rewrite createRandomUsers_for_done by lia.
  - rewrite (createRandomUsers_for_step amountOfUsers) by lia.
    rewrite createRandomUsers_for_step by lia.
    apply IH; lia.
Qed.

End MoreFixtures.

(** X7. For [n >= 0], a batch of [n + 1] users is the batch of [n] users
    followed by one more user, built from the generator state the batch of
    [n] left behind: a longer batch never changes the users before. *)
Theorem one_more_user_extends_the_batch :
  forall (G : Type) (F : Faker G) (n : Z) (g : G),
    0 <= n ->
    createRandomUsersRequestBody (n + 1) g
    = (fst (createRandomUsersRequestBody n g)
         ++ [fst (userRequestBody (snd (createRandomUsersRequestBody n g)))],
       snd (userRequestBody (snd (createRandomUsersRequestBody n g)))).
Proof.
  intros G F n g Hn. unfold createRandomUsersRequestBody.
  now apply (createRandomUsers_for_one_more (Z.to_nat (n - 0))).
Qed.

Lemma one_more_user_extends_the_batch_witness :
  createRandomUsersRequestBody (2 + 1) 42
  = (fst (createRandomUsersRequestBody 2 42)
       ++ [fst (userRequestBody (snd (createRandomUsersRequestBody 2 42)))],
     snd (userRequestBody (snd (createRandomUsersRequestBody 2 42)))).
Proof.
  apply (one_more_user_extends_the_batch Z seeded_faker 2 42). lia.
Defined.

(** ** The tests of the user API *)

Lemma for_lt_break_enter {S} (i bound : Z) (s : S)
    (body : Z -> S -> M (step S)) :
  i < bound ->
  for_lt_break i bound s body =
  (r <- body i s ;;
   match r with
   | Break s' => ret s'
   | Next s' => for_lt_break (i + 1) bound s' body
   end).
Proof.
  intros Hlt. rewrite for_lt_break_equation_1.
  destruct (Z_lt_dec i bound) as [l | n]; [| contradiction].
  now rewrite for_lt_break_clause_1_equation_1.
Qed.

Lemma for_lt_break_leave {S} (i bound : Z) (s : S)
    (body : Z -> S -> M (step S)) :
  bound <= i -> for_lt_break i bound s body = ret s.
Proof.
  intros Hge. rewrite for_lt_break_equation_1.
  destruct (Z_lt_dec i bound) as [l | n]; [lia |].
  now rewrite for_lt_break_clause_1_equation_2.
Qed.

Lemma test_Get_user_details_from_0 (zod : Zod) toBe_error env request u :
  test_Get_user_details toBe_error env request u
  = get_user_from toBe_error request (get_user_request env u)
      get_user_schema 0 None.
Proof. reflexivity. Qed.

Section GetUserLoop.

Variables (toBe_error : Z -> Z -> exception) (request : APIRequestContext).
Variables (c : call) (schema : ZodTypeAny).

Let from := get_user_from toBe_error request c schema.
Let after := get_user_after toBe_error schema.

(** The code after the loop, by cases on the response it finds. *)
Lemma get_user_after_some r t :
  after (Some r) t
  = if status r =? 200 then
      match json r with
      | Throw e => (Throw e, t ++ [ReadJson r])
      | Normal v =>
          (match schema v with
           | Throw e => Throw e
           | Normal _ => Normal tt
           end, t ++ [ReadJson r; Validated v])
      end
    else (Throw (toBe_error (status r) 200), t).
Proof.
  unfold after, get_user_after, member, expect_toBe, bind, ret, throw,
    response_json, schema_parse.
  destruct (status r =? 200); [| reflexivity].
  destruct (json r) as [v | e]; [| reflexivity].
  destruct (schema v); now rewrite <- app_assoc.
Qed.

Lemma get_user_from_leave i s t : 5 <= i -> from i s t = after s t.
Proof.
  intros Hi. unfold from, get_user_from.
  now rewrite for_lt_break_leave by exact Hi.
Qed.

(** One iteration of the loop, by cases. *)
Lemma get_user_from_step i s t :
  i < 5 ->
  from i s t
  = match request (List.length (requests t)) c with
    | Throw e => (Throw e, t ++ [Sent c])
    | Normal r =>
        if status r =? 200 then after (Some r) (t ++ [Sent c])
        else from (i + 1) (Some r)
               (t ++ [Sent c;
                      Logged ("Attempt " ++ number_to_string (i + 1)
                              ++ " failed. Retrying...")%string])
    end.
Proof.
  intros Hi. unfold from, get_user_from.
  rewrite for_lt_break_enter by exact Hi.
  unfold get_user_body, bind at 1 2 3, send.
  destruct (request _ c) as [r | e]; [| reflexivity].
  destruct (status r =? 200).
  - reflexivity.
  - unfold bind at 1, console_log, ret. now rewrite <- app_assoc.
Qed.

End GetUserLoop.

Section GetUserAgainstRun.

Variables (toBe_error : Z -> Z -> exception) (request : APIRequestContext).
Variables (c c' : call) (schema : ZodTypeAny).

(** The service does not tell the two requests apart. *)
Hypothesis same_answers : forall n, request n c = request n c'.

Let from := get_user_from toBe_error request c schema.
Let run := spec_attempts request c' 200 schema.

(** The loop of the test and the operation of the helpers, side by side:
    they end well together and send as many requests. *)
Lemma get_user_from_run (n : nat) :
  forall i s t t2,
    Z.to_nat (5 - i) = n -> 0 <= i ->
    List.length (requests t) = List.length (requests t2) ->
    (0 < i -> exists r, s = Some r /\ status r <> 200) ->
    (fst (from i s t) = Normal tt <-> exists r, fst (run n (i + 1) t2) = Normal r)
    /\ exists k,
         requests (snd (from i s t)) = requests t ++ repeat c k
         /\ requests (snd (run n (i + 1) t2)) = requests t2 ++ repeat c' k
         /\ (k <= n)%nat /\ (1 <= n -> 1 <= k)%nat.
Proof.
  induction n as [| n IH]; intros i s t t2 Hn Hi Hlen Hs.
  - unfold from. rewrite get_user_from_leave by lia.
    destruct Hs as (r & -> & Hr); [lia |].
    rewrite get_user_after_some.
    apply Z.eqb_neq in Hr. rewrite Hr. cbn [fst snd]. split.
    + split; [discriminate | intros (r' & Hr'); discriminate].
    + exists 0%nat. cbn [repeat]. rewrite !app_nil_r.
      repeat split; lia.
  - unfold from, run. rewrite get_user_from_step by lia.
    rewrite run_step. rewrite <- Hlen, <- same_answers.
    destruct (request (List.length (requests t)) c) as [r | e].
    + destruct (status r =? 200) eqn:Hst.
      * rewrite get_user_after_some, Hst.
        destruct (json r) as [v | e].
        -- cbn [fst snd]. split.
           ++ destruct (schema v); split; try discriminate.
              ** intros _. now exists r.
              ** reflexivity.
              ** intros (r' & Hr'). discriminate.
           ++ exists 1%nat. rewrite <- app_assoc, !requests_app. cbn.
              repeat split; lia.
        -- cbn [fst snd]. split.
           ++ split; [discriminate | intros (r' & Hr'); discriminate].
           ++ exists 1%nat. rewrite <- app_assoc, !requests_app. cbn.
              repeat split; lia.
      * apply Z.eqb_neq in Hst.
        destruct (IH (i + 1) (Some r)
                    (t ++ [Sent c;
                           Logged ("Attempt " ++ number_to_string (i + 1)
                                   ++ " failed. Retrying...")%string])
                    (t2 ++ [Sent c'; Logged (diagnostic (i + 1) (target c'))]))
          as (Hiff & k & Hk1 & Hk2 & Hle & Hge).
        -- lia.
        -- lia.
        -- rewrite !requests_app, !length_app. cbn. lia.
        -- intros _. now exists r.
        -- split; [exact Hiff |].
           exists (S k). fold from run. rewrite Hk1, Hk2.
           rewrite !requests_app, <- !app_assoc. cbn.
           repeat split; lia.
    + cbn [fst snd]. split.
      * split; [discriminate | intros (r' & Hr'); discriminate].
      * exists 1%nat. rewrite !requests_app. cbn. repeat split; lia.
Qed.

End GetUserAgainstRun.

Section GetUserFailures.

Variables (toBe_error : Z -> Z -> exception) (request : APIRequestContext).
Variables (c : call) (schema : ZodTypeAny).

Let from := get_user_from toBe_error request c schema.

(** [m + 1] iterations that meet another status code leave the last
    response in the variable. *)
Lemma get_user_from_failures (m : nat) :
  forall i s t,
    i + Z.of_nat (S m) <= 5 ->
    (forall j, (j <= m)%nat ->
       exists r, request (List.length (requests t) + j)%nat c = Normal r
                 /\ status r <> 200) ->
    exists r,
      request (List.length (requests t) + m)%nat c = Normal r
      /\ status r <> 200
      /\ from i s t
         = from (i + Z.of_nat (S m)) (Some r)
             (t ++ plain_failures c (i + 1) (S m)).
Proof.
  induction m as [| m IH]; intros i s t Hi Hfail.
  - destruct (Hfail 0%nat) as (r & Hr & Hs); [lia |].
    exists r. split; [exact Hr | split; [exact Hs |]].
    unfold from. rewrite get_user_from_step by lia.
    rewrite Nat.add_0_r in Hr. rewrite Hr.
    apply Z.eqb_neq in Hs. now rewrite Hs.
  - destruct (Hfail 0%nat) as (r0 & Hr0 & Hs0); [lia |].
    rewrite Nat.add_0_r in Hr0.
    destruct (IH (i + 1) (Some r0)
                (t ++ [Sent c;
                       Logged ("Attempt " ++ number_to_string (i + 1)
                               ++ " failed. Retrying...")%string]))
      as (r & Hr & Hs & Hfrom).
    + lia.
    + intros j Hj. destruct (Hfail (S j)) as (rj & Hrj & Hsj); [lia |].
      exists rj. split; [| exact Hsj].
      rewrite requests_app, length_app. cbn.
      now replace (List.length (requests t) + 1 + j)%nat
        with (List.length (requests t) + S j)%nat by lia.
    + exists r. split; [| split; [exact Hs |]].
      * rewrite requests_app, length_app in Hr. cbn in Hr.
        now replace (List.length (requests t) + S m)%nat
          with (List.length (requests t) + 1 + m)%nat by lia.
      * unfold from. rewrite get_user_from_step by lia.
        rewrite Hr0. apply Z.eqb_neq in Hs0. rewrite Hs0.
        fold from. rewrite Hfrom.
        replace (i + 1 + Z.of_nat (S m)) with (i + Z.of_nat (S (S m))) by lia.
        f_equal. rewrite <- app_assoc. reflexivity.
Qed.

End GetUserFailures.

Lemma append_assoc (a b c : string) :
  ((a ++ b) ++ c)%string = (a ++ (b ++ c))%string.
Proof. induction a as [| ch a IH]; cbn; [reflexivity | now rewrite IH]. Qed.

(** The create-user test, by cases on the answer to its request. *)
Lemma test_Create_a_new_user_cases (zod : Zod) toBe_error env request u t :
  test_Create_a_new_user toBe_error env request u t
  = match request (List.length (requests t)) (create_user_request env u) with
    | Throw e => (Throw e, t ++ [Sent (create_user_request env u)])
    | Normal r =>
        if status r =? 200 then
          match json r with
          | Throw e =>
              (Throw e, t ++ [Sent (create_user_request env u); ReadJson r])
          | Normal v =>
              (match create_user_schema u v with
               | Throw e => Throw e
               | Normal _ => Normal tt
               end,
               t ++ [Sent (create_user_request env u); ReadJson r;
                     Validated v])
          end
        else (Throw (toBe_error (status r) 200),
              t ++ [Sent (create_user_request env u)])
    end.
Proof.
  unfold test_Create_a_new_user, request_post, bind, send, expect_toBe,
    response_json, schema_parse, ret, throw.
  fold (create_user_request env u).
  destruct (request _ (create_user_request env u)) as [r | e];
    [| reflexivity].
  destruct (status r =? 200); [| reflexivity].
  destruct (json r) as [v | e]; rewrite <- ?app_assoc; [| reflexivity].
  fold (create_user_schema u).
  destruct (create_user_schema u v); now rewrite <- ?app_assoc.
Qed.

(** [postAPI] with one attempt, by cases on the answer to its request. *)
Lemma postAPI_once_cases request url requestBody expected schema t :
  postAPI request url requestBody expected schema (Some 1) t
  = let c := request_of (PostAPI requestBody) url in
    match request (List.length (requests t)) c with
    | Throw e => (Throw e, t ++ [Sent c])
    | Normal r =>
        if status r =? expected then
          match json r with
          | Throw e => (Throw e, t ++ [Sent c; ReadJson r])
          | Normal v =>
              (match schema v with
               | Throw e => Throw e
               | Normal _ => Normal r
               end, t ++ [Sent c; ReadJson r; Validated v])
          end
        else (Throw exhausted, t ++ [Sent c; Logged (diagnostic 1 url)])
    end.
Proof.
  change (postAPI request url requestBody expected schema (Some 1) t)
    with (invoke (PostAPI requestBody) request url expected schema (Some 1) t).
  rewrite invoke_spec_call. unfold spec_call, default.
  change (Z.to_nat 1) with 1%nat. rewrite run_step. cbn zeta.
  destruct (request _ _) as [r | e]; [| reflexivity].
  destruct (status r =? expected); reflexivity.
Qed.

(** X8. The create-user test passes exactly when [postAPI], given the same
    URL, body and schema, the status 200 and a single attempt, returns a
    response; either way both send the same single request. *)
Theorem create_test_is_postAPI_once :
  forall (zod : Zod) (toBe_error : Z -> Z -> exception)
         (env : string -> option string) (request : APIRequestContext)
         (u : User) (t : trace),
    let test := test_Create_a_new_user toBe_error env request u t in
    let helper :=
      postAPI request (BASE_URL env ++ "/user")%string (user_json u) 200
        (z_object [("code", z_literal_number 200);
                   ("type", z_literal_string "unknown");
                   ("message", z_literal_string (number_to_string (id u)))])
        (Some 1) t in
    (fst test = Normal tt <-> exists r, fst helper = Normal r)
    /\ requests (snd test) = requests (snd helper)
    /\ requests (snd test)
       = requests t
         ++ [{| verb := POST; target := (BASE_URL env ++ "/user")%string;
                options := Some {| params := None; headers := None;
                                   data := Some (user_json u) |} |}].
Proof.
  intros zod toBe_error env request u t. cbn zeta.
  rewrite test_Create_a_new_user_cases, postAPI_once_cases. cbn zeta.
  change (request_of (PostAPI (user_json u)) (BASE_URL env ++ "/user")%string)
    with (create_user_request env u).
  fold (create_user_schema u).
  destruct (request _ (create_user_request env u)) as [r | e].
  - destruct (status r =? 200).
    + destruct (json r) as [v | e].
      * cbn [fst snd]. rewrite !requests_app. cbn.
        destruct (create_user_schema u v); repeat split;
          try discriminate; try (intros _; now exists r);
          intros (r' & Hr'); discriminate.
      * cbn [fst snd]. rewrite !requests_app. cbn.
        repeat split; try discriminate. intros (r' & Hr'); discriminate.
    + cbn [fst snd]. rewrite !requests_app. cbn.
      repeat split; try discriminate. intros (r' & Hr'); discriminate.
  - cbn [fst snd]. rewrite !requests_app. cbn.
    repeat split; try discriminate. intros (r' & Hr'); discriminate.
Qed.

(** X9. When the answer to the create-user test has another status code
    than 200, the test fails with the error of [expect], which carries the
    status received; the body is not read.  [postAPI] with one attempt, in
    the same situation, writes its console line and throws the exhaustion
    error. *)
Theorem create_test_reports_the_status :
  forall (zod : Zod) (toBe_error : Z -> Z -> exception)
         (env : string -> option string) (request : APIRequestContext)
         (u : User) (t : trace) (r : APIResponse),
    request (List.length (requests t)) (create_user_request env u) = Normal r ->
    status r <> 200 ->
    test_Create_a_new_user toBe_error env request u t
    = (Throw (toBe_error (status r) 200),
       t ++ [Sent (create_user_request env u)])
    /\ postAPI request (BASE_URL env ++ "/user")%string (user_json u) 200
         (create_user_schema u) (Some 1) t
       = (Throw (Error "Max retries reached. API call failed."),
          t ++ [Sent (create_user_request env u);
                Logged (diagnostic 1 (BASE_URL env ++ "/user")%string)]).
Proof.
  intros zod toBe_error env request u t r Hr Hs.
  rewrite test_Create_a_new_user_cases, postAPI_once_cases. cbn zeta.
  change (request_of (PostAPI (user_json u)) (BASE_URL env ++ "/user")%string)
    with (create_user_request env u).
  rewrite Hr. apply Z.eqb_neq in Hs. rewrite Hs. now split.
Qed.

Lemma create_test_reports_the_status_witness :
  test_Create_a_new_user sample_toBe_error sample_env service_down
    sample_user []
  = (Throw (sample_toBe_error (status (answer 404 JNull)) 200),
     [] ++ [Sent (create_user_request sample_env sample_user)])
  /\ postAPI service_down (BASE_URL sample_env ++ "/user")%string
       (user_json sample_user) 200 (create_user_schema sample_user)
       (Some 1) []
     = (Throw (Error "Max retries reached. API call failed."),
        [] ++ [Sent (create_user_request sample_env sample_user);
               Logged (diagnostic 1 (BASE_URL sample_env ++ "/user")%string)]).
Proof.
  apply (create_test_reports_the_status sample_zod sample_toBe_error
           sample_env service_down sample_user [] (answer 404 JNull)).
  - reflexivity.
  - discriminate.
Defined.

(** The requests of the two tests. *)
Lemma test_Create_a_new_user_requests (zod : Zod) toBe_error env request u t :
  requests (snd (test_Create_a_new_user toBe_error env request u t))
  = requests t ++ [create_user_request env u].
Proof.
  rewrite test_Create_a_new_user_cases.
  destruct (request _ (create_user_request env u)) as [r | e].
  - destruct (status r =? 200); [destruct (json r) |];
      cbn [snd]; now rewrite requests_app.
  - cbn [snd]. now rewrite requests_app.
Qed.

Lemma test_Get_user_details_requests (zod : Zod) toBe_error env request u t :
  exists k,
    (1 <= k <= 5)%nat
    /\ requests (snd (test_Get_user_details toBe_error env request u t))
       = requests t ++ repeat (get_user_request env u) k.
Proof.
  rewrite test_Get_user_details_from_0.
  destruct (get_user_from_run toBe_error request (get_user_request env u)
              (get_user_request env u) get_user_schema (fun n => eq_refl)
              5 0 None t t)
    as (_ & k & Hk & _ & Hle & Hge); try reflexivity; try lia.
  exists k. split; [lia | exact Hk].
Qed.

(** X10. Whatever the service does, the get-user test sends at least one
    and at most five requests, and all of them are the same [GET] of
    [<base URL>/user/<username>] without options. *)
Theorem get_user_test_requests :
  forall (zod : Zod) (toBe_error : Z -> Z -> exception)
         (env : string -> option string) (request : APIRequestContext)
         (u : User) (t : trace),
    exists k,
      (1 <= k <= 5)%nat
      /\ requests (snd (test_Get_user_details toBe_error env request u t))
         = requests t
           ++ repeat {| verb := GET;
                        target := (BASE_URL env ++ "/user/" ++ username u)%string;
                        options := None |} k.
Proof.
  intros zod toBe_error env request u t.
  exact (test_Get_user_details_requests zod toBe_error env request u t).
Qed.

(** X11. When the service does not tell a [GET] with empty query
    parameters and headers from a [GET] without options, the get-user test
    passes exactly when [getAPI], given the same URL and schema and the
    status 200, returns a response, and both send as many requests. *)
Theorem get_user_test_agrees_with_getAPI :
  forall (zod : Zod) (toBe_error : Z -> Z -> exception)
         (env : string -> option string) (request : APIRequestContext)
         (u : User) (t : trace),
    let url := (BASE_URL env ++ "/user/" ++ username u)%string in
    (forall n,
       request n {| verb := GET; target := url; options := None |}
       = request n {| verb := GET; target := url;
                      options := Some {| params := Some [];
                                         headers := Some [];
                                         data := None |} |}) ->
    let test := test_Get_user_details toBe_error env request u t in
    let helper := getAPI request url 200 get_user_schema None None None t in
    (fst test = Normal tt <-> exists r, fst helper = Normal r)
    /\ List.length (requests (snd test)) = List.length (requests (snd helper)).
Proof.
  intros zod toBe_error env request u t url Hsame. cbn zeta.
  rewrite test_Get_user_details_from_0.
  change (getAPI request url 200 get_user_schema None None None t)
    with (invoke (GetAPI None None) request url 200 get_user_schema None t).
  rewrite invoke_spec_call. unfold spec_call, default.
  destruct (get_user_from_run toBe_error request (get_user_request env u)
              (request_of (GetAPI None None) url) get_user_schema Hsame
              5 0 None t t)
    as (Hiff & k & Hk & Hk' & _); try reflexivity; try lia.
  split; [exact Hiff |].
  change (Z.to_nat 5) with 5%nat. change (0 + 1) with 1 in Hk'.
  now rewrite Hk, Hk', !length_app, !repeat_length.
Qed.

Lemma get_user_test_agrees_with_getAPI_witness :
  let url := (BASE_URL sample_env ++ "/user/" ++ username sample_user)%string in
  let test :=
    test_Get_user_details sample_toBe_error sample_env service_user_store
      sample_user [] in
  let helper :=
    getAPI service_user_store url 200 get_user_schema None None None [] in
  (fst test = Normal tt <-> exists r, fst helper = Normal r)
  /\ List.length (requests (snd test)) = List.length (requests (snd helper)).
Proof.
  apply (get_user_test_agrees_with_getAPI sample_zod sample_toBe_error
           sample_env service_user_store sample_user []).
  intros n. reflexivity.
Defined.

(** X12. When all five attempts of the get-user test meet another status
    code than 200, the test fails with the error of [expect] for the
    status of the fifth response, not with an exhaustion error; five
    requests were sent, the console holds the five lines "Attempt j
    failed. Retrying...", and no body was read. *)
Theorem get_user_test_gives_up_on_expect :
  forall (zod : Zod) (toBe_error : Z -> Z -> exception)
         (env : string -> option string) (request : APIRequestContext)
         (u : User) (t : trace),
    (forall j, (1 <= j <= 5)%nat ->
       mismatched request (get_user_request env u) 200 t j) ->
    exists r new,
      attempt_outcome request (get_user_request env u) t 5 = Normal r
      /\ test_Get_user_details toBe_error env request u t
         = (Throw (toBe_error (status r) 200), t ++ new)
      /\ requests new = repeat (get_user_request env u) 5
      /\ console new
         = map (fun j => ("Attempt " ++ number_to_string (Z.of_nat j)
                          ++ " failed. Retrying...")%string) (seq 1 5)
      /\ parsed new = [].
Proof.
  intros zod toBe_error env request u t Hfail.
  rewrite test_Get_user_details_from_0.
  destruct (get_user_from_failures toBe_error request
              (get_user_request env u) get_user_schema 4 0 None t)
    as (r & Hr & Hs & Hfrom).
  - lia.
  - intros j Hj. destruct (Hfail (S j)) as (rj & Hrj & Hsj); [lia |].
    now exists rj.
  - exists r, (plain_failures (get_user_request env u) 1 5).
    split; [exact Hr | split; [| repeat split]].
    rewrite Hfrom, get_user_from_leave by lia.
    rewrite get_user_after_some.
    apply Z.eqb_neq in Hs. now rewrite Hs.
Qed.

Lemma get_user_test_gives_up_on_expect_witness :
  exists r new,
    attempt_outcome service_down (get_user_request sample_env sample_user)
      [] 5 = Normal r
    /\ test_Get_user_details sample_toBe_error sample_env service_down
         sample_user []
       = (Throw (sample_toBe_error (status r) 200), [] ++ new)
    /\ requests new = repeat (get_user_request sample_env sample_user) 5
    /\ console new
       = map (fun j => ("Attempt " ++ number_to_string (Z.of_nat j)
                        ++ " failed. Retrying...")%string) (seq 1 5)
    /\ parsed new = [].
Proof.
  apply (get_user_test_gives_up_on_expect sample_zod sample_toBe_error
           sample_env service_down sample_user []).
  intros j Hj. exists (answer 404 JNull).
  split; [reflexivity | discriminate].
Defined.

(** X13. A variable of the environment that is not set is sent as the text
    "undefined": with [API_VERSION] unset, the create-user test posts to
    [<BASE_URL>undefined/user] and the get-user test reads from
    [<BASE_URL>undefined/user/<username>]. *)
Theorem unset_variable_is_sent_as_text :
  forall (zod : Zod) (toBe_error : Z -> Z -> exception)
         (env : string -> option string) (request : APIRequestContext)
         (u : User) (t : trace),
    env "API_VERSION" = None ->
    requests (snd (test_Create_a_new_user toBe_error env request u t))
    = requests t
      ++ [{| verb := POST;
             target := (template (env "BASE_URL") ++ "undefined/user")%string;
             options := Some {| params := None; headers := None;
                                data := Some (user_json u) |} |}]
    /\ exists k,
         (1 <= k <= 5)%nat
         /\ requests (snd (test_Get_user_details toBe_error env request u t))
            = requests t
              ++ repeat {| verb := GET;
                           target := (template (env "BASE_URL")
                                      ++ "undefined/user/" ++ username u)%string;
                           options := None |} k.
Proof.
  intros zod toBe_error env request u t Hunset.
  assert (Hbase : forall rest,
             (BASE_URL env ++ rest)%string
             = (template (env "BASE_URL") ++ "undefined" ++ rest)%string).
  { intros rest. unfold BASE_URL. rewrite Hunset.
    unfold template at 2, default. apply append_assoc. }
  split.
  - rewrite test_Create_a_new_user_requests.
    unfold create_user_request. now rewrite Hbase.
  - destruct (test_Get_user_details_requests zod toBe_error env request u t)
      as (k & Hk & Hreq).
    exists k. split; [exact Hk |].
    rewrite Hreq. unfold get_user_request. now rewrite Hbase.
Qed.

Lemma unset_variable_is_sent_as_text_witness :
  requests (snd (test_Create_a_new_user sample_toBe_error sample_env
                   service_user_store sample_user []))
  = requests []
    ++ [{| verb := POST;
           target := (template (sample_env "BASE_URL")
                      ++ "undefined/user")%string;
           options := Some {| params := None; headers := None;
                              data := Some (user_json sample_user) |} |}]
  /\ exists k,
       (1 <= k <= 5)%nat
       /\ requests (snd (test_Get_user_details sample_toBe_error sample_env
                           service_user_store sample_user []))
          = requests []
            ++ repeat {| verb := GET;
                         target := (template (sample_env "BASE_URL")
                                    ++ "undefined/user/"
                                    ++ username sample_user)%string;
                         options := None |} k.
Proof.
  apply (unset_variable_is_sent_as_text sample_zod sample_toBe_error
           sample_env service_user_store sample_user []).
  reflexivity.
Defined.

(** The get-user test against a service that finds the user on the second
    request. *)
Example scenario_get_user :
  test_Get_user_details sample_toBe_error sample_env service_user_store
    sample_user []
  = (Normal tt,
     let c :=
       {| verb := GET;
          target := "https://petstore.swagger.io/v2undefined/user/TestUserName-test-automation-delete-me";
          options := None |} in
     [Sent c; Logged "Attempt 1 failed. Retrying...";
      Sent c; ReadJson (answer 200 (user_json sample_user));
      Validated (user_json sample_user)]).
Proof. vm_compute. reflexivity. Qed.

(** ** The login and logout tests *)

(** A helper whose first attempt is answered as expected returns at once. *)
Lemma invoke_returns_at_once h request url expected schema retryCount t r v v' :
  1 <= default 5 retryCount ->
  request (List.length (requests t)) (request_of h url) = Normal r ->
  status r = expected -> json r = Normal v -> schema v = Normal v' ->
  invoke h request url expected schema retryCount t
  = (Normal r, t ++ [Sent (request_of h url); ReadJson r; Validated v]).
Proof.
  intros HN Hr Hs Hj Hv. rewrite invoke_spec_call. unfold spec_call.
  replace (Z.to_nat (default 5 retryCount))
    with (S (Z.to_nat (default 5 retryCount) - 1)) by lia.
  eapply run_returns; eassumption.
Qed.

(** X14. On a service that answers every request at once with the status
    200 and a body its schema accepts, the hook before, the login test and
    the hook after, run one after the other, send exactly three requests:
    the [POST] of the user, the [GET] of [/user/login] with the user's name
    and password as query parameters, and the [DELETE] of the same user
    name; nothing is written to the console but the two lines of the
    hooks. *)
Theorem login_test_with_hooks_on_a_healthy_service :
  forall (zod : Zod) (env : string -> option string) (u : User)
         (request : APIRequestContext) (t : trace)
         (r1 r2 r3 : APIResponse) (v1 v2 v3 v1' v2' v3' : Json),
    let created := request_of (PostAPI (user_json u))
                     (BASE_URL env ++ "/user")%string in
    let login := request_of
                   (GetAPI (Some [("username", JString (username u));
                                  ("password", JString (password u))]) None)
                   (BASE_URL env ++ "/user/login")%string in
    let deleted := request_of DeleteAPI
                     (BASE_URL env ++ "/user/" ++ username u)%string in
    request (List.length (requests t)) created = Normal r1 ->
    request (List.length (requests t) + 1)%nat login = Normal r2 ->
    request (List.length (requests t) + 2)%nat deleted = Normal r3 ->
    status r1 = 200 -> status r2 = 200 -> status r3 = 200 ->
    json r1 = Normal v1 -> json r2 = Normal v2 -> json r3 = Normal v3 ->
    LoginLogoutTests.expectedCreateUserResponseSchema u v1 = Normal v1' ->
    LoginLogoutTests.expectedLoginLogoutUserResponseSchema v2 = Normal v2' ->
    LoginLogoutTests.expectedDeleteUserResponseSchema u v3 = Normal v3' ->
    (LoginLogoutTests.beforeEach env u request ;;
     LoginLogoutTests.test_Logs_user_into_system env u request ;;
     LoginLogoutTests.afterEach env u request) t
    = (Normal tt,
       t ++ [Logged "Creating user before each test...";
             Sent created; ReadJson r1; Validated v1;
             Sent login; ReadJson r2; Validated v2;
             Logged "Deleting user after each test...";
             Sent deleted; ReadJson r3; Validated v3]).
Proof.
  intros zod env u request t r1 r2 r3 v1 v2 v3 v1' v2' v3'
         created login deleted Hr1 Hr2 Hr3 Hs1 Hs2 Hs3 Hj1 Hj2 Hj3
         Hv1 Hv2 Hv3.
  unfold LoginLogoutTests.beforeEach,
    LoginLogoutTests.test_Logs_user_into_system, LoginLogoutTests.afterEach.
  change (postAPI request ?url ?b ?e ?s ?n)
    with (invoke (PostAPI b) request url e s n).
  change (getAPI request ?url ?e ?s ?p ?hd ?n)
    with (invoke (GetAPI p hd) request url e s n).
  change (deleteAPI request ?url ?e ?s ?n)
    with (invoke DeleteAPI request url e s n).
  unfold bind, console_log, ret.
  rewrite (invoke_returns_at_once _ _ _ _ _ None _ r1 v1 v1');
    [| cbn; lia | rewrite requests_app, app_nil_r; exact Hr1
     | assumption ..].
  rewrite (invoke_returns_at_once _ _ _ _ _ None _ r2 v2 v2');
    [| cbn; lia
     | rewrite !requests_app; cbn; rewrite app_nil_r, length_app; exact Hr2
     | assumption ..].
  rewrite (invoke_returns_at_once _ _ _ _ _ None _ r3 v3 v3');
    [| cbn; lia
     | rewrite !requests_app; cbn; rewrite !app_nil_r, !length_app; cbn;
       rewrite <- Nat.add_assoc; exact Hr3
     | assumption ..].
  now rewrite <- !app_assoc.
Qed.

Lemma login_test_with_hooks_on_a_healthy_service_witness :
  (LoginLogoutTests.beforeEach sample_env sample_user service_healthy ;;
   LoginLogoutTests.test_Logs_user_into_system sample_env sample_user
     service_healthy ;;
   LoginLogoutTests.afterEach sample_env sample_user service_healthy) []
  = (Normal tt,
     let created := request_of (PostAPI (user_json sample_user))
                      (BASE_URL sample_env ++ "/user")%string in
     let login := request_of
                    (GetAPI (Some [("username", JString (username sample_user));
                                   ("password", JString (password sample_user))])
                       None)
                    (BASE_URL sample_env ++ "/user/login")%string in
     let deleted := request_of DeleteAPI
                      (BASE_URL sample_env ++ "/user/"
                       ++ username sample_user)%string in
     [] ++ [Logged "Creating user before each test...";
            Sent created; ReadJson (answer 200 (api_response "7"));
            Validated (api_response "7");
            Sent login;
            ReadJson (answer 200 (api_response "logged in user session:1"));
            Validated (api_response "logged in user session:1");
            Logged "Deleting user after each test...";
            Sent deleted;
            ReadJson (answer 200
                        (api_response "TestUserName-test-automation-delete-me"));
            Validated (api_response "TestUserName-test-automation-delete-me")]).
Proof.
  apply (login_test_with_hooks_on_a_healthy_service sample_zod sample_env
           sample_user service_healthy []
           (answer 200 (api_response "7"))
           (answer 200 (api_response "logged in user session:1"))
           (answer 200 (api_response "TestUserName-test-automation-delete-me"))
           (api_response "7")
           (api_response "logged in user session:1")
           (api_response "TestUserName-test-automation-delete-me")
           (api_response "7")
           (api_response "logged in user session:1")
           (api_response "TestUserName-test-automation-delete-me"));
    reflexivity.
Defined.
